(** * Fitbit2Garmin: the weight-history converter

    A shallow embedding of [backend/converter.py] (the web-service converter,
    class [FitbitConverter] and [convert_fitbit_to_garmin]) and of
    [tested/convert_json_to_fit.py] (the command-line converter), with the
    properties the specification states about them.

    Python values are modelled as the code sees them after [json.load]: a
    dynamically typed value [pyval]; an operation that can raise returns a
    [result].  Floats are IEEE binary64, as in CPython, through the kernel's
    primitive floats.  The messages and the encoder come from the [fit_tool]
    package, which is not part of the repository.  A message is modelled as
    the list of the attributes the code assigns; what the package does with an
    assigned value as far as the converters depend on it (it stores a
    timestamp in whole seconds and a weight or a percentage in hundredths, in
    an unsigned integer field, and refuses a value that does not fit; it
    writes the fields of a message in the order of the FIT profile) is
    modelled beside the messages; the builder that turns the messages into
    bytes is a variable of the section that embeds the code which calls
    it. *)

From Stdlib Require Import ZArith List String Ascii Bool Floats Lia.
From Stdlib Require Import Permutation Sorted.
Import ListNotations.

Local Set Warnings "-register-all,-inexact-float".

Local Open Scope string_scope.
Local Open Scope Z_scope.

(** ** Exceptions and results *)

(** The exception classes the modelled code can raise.  [ValueError] keeps its
    message, because the converter's format error is a [ValueError] told apart
    by its text.  [FitEncodingError] is the exception of [fit_tool]'s setters.
    [Unmodelled] is not a Python exception: it marks an input that the model
    does not follow (a log id that is not an integer). *)
Inductive exn : Type :=
| ValueError (msg : string)
| TypeError
| KeyError
| IndexError
| AttributeError
| OverflowError
| FitEncodingError
| Unmodelled.

Inductive result (A : Type) : Type :=
| Ok (a : A)
| Raise (e : exn).

Arguments Ok {A} a.
Arguments Raise {A} e.

Definition bind {A B : Type} (r : result A) (k : A -> result B) : result B :=
  match r with
  | Ok a => k a
  | Raise e => Raise e
  end.

Declare Scope py_scope.
Delimit Scope py_scope with py.
Notation "x <- r ;; k" := (bind r (fun x => k))
  (at level 61, r at next level, right associativity) : py_scope.
Notation "r ;;; k" := (bind r (fun _ => k))
  (at level 61, right associativity) : py_scope.
Local Open Scope py_scope.

(** ** Python values *)

(** What [json.loads] returns: [None], [bool], [int], [float], [str], [list]
    and [dict] with string keys.  A dict is an association list in insertion
    order; [json.loads] keeps one entry per key. *)
Inductive pyval : Type :=
| PNone
| PBool (b : bool)
| PInt (z : Z)
| PFloat (f : float)
| PStr (s : string)
| PList (l : list pyval)
| PDict (d : list (string * pyval)).

Fixpoint dict_lookup (k : string) (d : list (string * pyval)) : option pyval :=
  match d with
  | [] => None
  | (k', v) :: d' => if String.eqb k k' then Some v else dict_lookup k d'
  end.

(** [sub in s] on strings: [sub] occurs in [s]. *)
Fixpoint str_contains (sub s : string) : bool :=
  if prefix sub s then true
  else match s with
       | EmptyString => false
       | String _ s' => str_contains sub s'
       end.

Definition is_pystr (k : string) (v : pyval) : bool :=
  match v with
  | PStr s => String.eqb k s
  | _ => false
  end.

(** [k in v] for a string [k]: key membership in a dict, element membership in
    a list, substring test in a string; any other value is not a container and
    the operator raises [TypeError]. *)
Definition py_in (k : string) (v : pyval) : result bool :=
  match v with
  | PDict d => Ok (match dict_lookup k d with Some _ => true | None => false end)
  | PList l => Ok (existsb (is_pystr k) l)
  | PStr s => Ok (str_contains k s)
  | _ => Raise TypeError
  end.

(** [v[k]] for a string key [k]: a dict looks the key up ([KeyError] when it is
    absent); a list or a string wants an integer index and every other value is
    not subscriptable, [TypeError] in both cases. *)
Definition py_getitem (v : pyval) (k : string) : result pyval :=
  match v with
  | PDict d => match dict_lookup k d with
               | Some x => Ok x
               | None => Raise KeyError
               end
  | _ => Raise TypeError
  end.

(** [v.get(k, default)]: only a dict has the method. *)
Definition py_get (v : pyval) (k : string) (default : pyval) : result pyval :=
  match v with
  | PDict d => Ok (match dict_lookup k d with
                   | Some x => x
                   | None => default
                   end)
  | _ => Raise AttributeError
  end.

(** Truth value of a parsed JSON value ([not data], [if x:]). *)
Definition py_truthy (v : pyval) : bool :=
  match v with
  | PNone => false
  | PBool b => b
  | PInt z => negb (z =? 0)
  | PFloat f => negb (PrimFloat.eqb f 0%float)
  | PStr s => negb (String.eqb s "")
  | PList l => match l with [] => false | _ => true end
  | PDict d => match d with [] => false | _ => true end
  end.

(** ** Strings *)

(** [str.isspace] on the ASCII range: tab to carriage return, the four
    separators 28..31 and the space. *)
Definition is_space (c : ascii) : bool :=
  let n := Z.of_nat (nat_of_ascii c) in
  ((9 <=? n) && (n <=? 13)) || ((28 <=? n) && (n <=? 31)) || (n =? 32).

Definition is_digit (c : ascii) : bool :=
  let n := Z.of_nat (nat_of_ascii c) in
  (48 <=? n) && (n <=? 57).

Definition digit_value (c : ascii) : Z := Z.of_nat (nat_of_ascii c) - 48.

(** [s.split(sep)] for a one-character separator: always at least one part. *)
Fixpoint split (sep : ascii) (s : string) : list string :=
  match s with
  | EmptyString => [EmptyString]
  | String c s' =>
      if Ascii.eqb c sep then EmptyString :: split sep s'
      else match split sep s' with
           | h :: t => String c h :: t
           | [] => [String c EmptyString]
           end
  end.

Fixpoint remove_all_aux (pat : string) (skip : nat) (s : string) : string :=
  match s with
  | EmptyString => EmptyString
  | String c s' =>
      match skip with
      | S k => remove_all_aux pat k s'
      | O => if prefix pat s
             then remove_all_aux pat (String.length pat - 1) s'
             else String c (remove_all_aux pat 0 s')
      end
  end.

(** [s.replace(pat, '')] for a non-empty [pat]: the occurrences are removed
    from left to right, without overlap. *)
Definition remove_all (pat s : string) : string := remove_all_aux pat 0 s.

Fixpoint lstrip (s : string) : string :=
  match s with
  | String c s' => if is_space c then lstrip s' else s
  | EmptyString => EmptyString
  end.

Fixpoint rev_string_aux (s acc : string) : string :=
  match s with
  | EmptyString => acc
  | String c s' => rev_string_aux s' (String c acc)
  end.

Definition rev_string (s : string) : string := rev_string_aux s "".

Definition strip (s : string) : string :=
  rev_string (lstrip (rev_string (lstrip s))).

(** Decimal rendering of an integer, as [str(n)] and [f"{n}"] give it. *)
Fixpoint digits_of_pos_aux (fuel : nat) (n : Z) (acc : string) : string :=
  match fuel with
  | O => acc
  | S fuel' =>
      let acc' := String (ascii_of_nat (Z.to_nat (48 + n mod 10))) acc in
      if n / 10 =? 0 then acc' else digits_of_pos_aux fuel' (n / 10) acc'
  end.

Definition str_of_Z (n : Z) : string :=
  if n <? 0
  then String "-" (digits_of_pos_aux (S (Z.to_nat (Z.log2 (- n)))) (- n) "")
  else digits_of_pos_aux (S (Z.to_nat (Z.log2 n))) n "".

(** The digits of [int(s)]: groups of decimal digits separated by single
    underscores.  The state says whether a digit is required next. *)
Fixpoint int_digits (s : string) (need_digit : bool) (acc : Z) (count : Z)
  : option (Z * Z) :=
  match s with
  | EmptyString => if need_digit then None else Some (acc, count)
  | String c s' =>
      if is_digit c then int_digits s' false (10 * acc + digit_value c) (count + 1)
      else if Ascii.eqb c "_"
           then if need_digit then None else int_digits s' true acc count
           else None
  end.

Definition invalid_literal : exn := ValueError "invalid literal for int() with base 10".

(** [int(s)] on a string: surrounding white space is dropped, one sign is
    allowed, and more than 4300 digits are refused; every failure is a
    [ValueError]. *)
Definition py_int (s : string) : result Z :=
  let body := strip s in
  let '(neg, ds) :=
    match body with
    | String "-" r => (true, r)
    | String "+" r => (false, r)
    | _ => (false, body)
    end in
  match int_digits ds true 0 0 with
  | Some (n, count) =>
      if 4300 <? count
      then Raise (ValueError "Exceeds the limit (4300 digits) for integer string conversion")
      else Ok (if neg then - n else n)
  | None => Raise invalid_literal
  end.

(** ** Calendar: the proleptic Gregorian calendar of [datetime] *)

Definition is_leap (y : Z) : bool :=
  ((y mod 4 =? 0) && negb (y mod 100 =? 0)) || (y mod 400 =? 0).

Definition days_in_month (y m : Z) : Z :=
  if m =? 2 then (if is_leap y then 29 else 28)
  else if (m =? 4) || (m =? 6) || (m =? 9) || (m =? 11) then 30
  else 31.

(** Days before January 1st of year [y]. *)
Definition days_before_year (y : Z) : Z :=
  let y1 := y - 1 in
  y1 * 365 + y1 / 4 - y1 / 100 + y1 / 400.

(** Days of year [y] before the first day of month [m]. *)
Definition days_before_month (y m : Z) : Z :=
  let base := nth (Z.to_nat (m - 1))
                  [0; 31; 59; 90; 120; 151; 181; 212; 243; 273; 304; 334] 0 in
  if (2 <? m) && is_leap y then base + 1 else base.

(** [_ymd2ord]: the ordinal of a date, 0001-01-01 being day 1. *)
Definition ymd2ord (y m d : Z) : Z :=
  days_before_year y + days_before_month y m + d.

(** A [datetime] without time zone and microseconds (the code never sets
    them to anything but UTC and zero). *)
Record datetime : Type := mk_datetime {
  dt_year : Z; dt_month : Z; dt_day : Z;
  dt_hour : Z; dt_minute : Z; dt_second : Z
}.

Definition fits_c_int (n : Z) : bool := (- 2147483648 <=? n) && (n <=? 2147483647).

(** The constructor [datetime(year, month, day, hour, minute, second)]: an
    argument that does not fit a C [int] is an [OverflowError], a field out of
    range a [ValueError]. *)
Definition py_datetime (y m d hh mm ss : Z) : result datetime :=
  if negb (fits_c_int y && fits_c_int m && fits_c_int d) then Raise OverflowError
  else if negb ((1 <=? y) && (y <=? 9999)) then Raise (ValueError "year is out of range")
  else if negb ((1 <=? m) && (m <=? 12)) then Raise (ValueError "month must be in 1..12")
  else if negb ((1 <=? d) && (d <=? days_in_month y m))
       then Raise (ValueError "day is out of range for month")
  else if negb ((0 <=? hh) && (hh <=? 23)) then Raise (ValueError "hour must be in 0..23")
  else if negb ((0 <=? mm) && (mm <=? 59)) then Raise (ValueError "minute must be in 0..59")
  else if negb ((0 <=? ss) && (ss <=? 59)) then Raise (ValueError "second must be in 0..59")
  else Ok (mk_datetime y m d hh mm ss).

(** [_isoweek1monday]: the ordinal of the Monday that starts ISO week 1. *)
Definition isoweek1monday (y : Z) : Z :=
  let firstday := ymd2ord y 1 1 in
  let firstweekday := (firstday + 6) mod 7 in
  let week1monday := firstday - firstweekday in
  if 3 <? firstweekday then week1monday + 7 else week1monday.

(** [date.isocalendar()[1]]: the ISO 8601 week number. *)
Definition iso_week (dt : datetime) : Z :=
  let year := dt_year dt in
  let today := ymd2ord year (dt_month dt) (dt_day dt) in
  let week := (today - isoweek1monday year) / 7 in
  if week <? 0 then (today - isoweek1monday (year - 1)) / 7 + 1
  else if (52 <=? week) && (isoweek1monday (year + 1) <=? today) then 1
  else week + 1.

(** Seconds from 1970-01-01 00:00:00 to [dt], both read as UTC. *)
Definition epoch_seconds (dt : datetime) : Z :=
  (ymd2ord (dt_year dt) (dt_month dt) (dt_day dt) - ymd2ord 1970 1 1) * 86400
  + dt_hour dt * 3600 + dt_minute dt * 60 + dt_second dt.

(** ** [datetime.strptime]

    [_strptime] turns the format into a regular expression, one named group
    per directive, and matches it at the start of the text with a backtracking
    matcher; the groups below are the ones of CPython's table for the
    directives the converter uses.  White space in the format stands for one
    or more white-space characters. *)

Inductive cclass : Type :=
| CDigit                      (* \d *)
| CRange (lo hi : ascii)      (* [lo-hi] *)
| CChar (c : ascii).

Definition cclass_matches (k : cclass) (c : ascii) : bool :=
  match k with
  | CDigit => is_digit c
  | CRange lo hi => (nat_of_ascii lo <=? nat_of_ascii c)%nat && (nat_of_ascii c <=? nat_of_ascii hi)%nat
  | CChar c' => Ascii.eqb c c'
  end.

Inductive directive : Type := Dm | Dd | Dy | DY | DH | DM | DS.

Inductive token : Type :=
| TGroup (d : directive) (alts : list (list cclass))
| TLit (c : ascii)
| TSpaces.

Definition group_of (d : directive) : token :=
  TGroup d
    match d with
    | Dm => [[CChar "1"; CRange "0" "2"]; [CChar "0"; CRange "1" "9"]; [CRange "1" "9"]]
    | Dd => [[CChar "3"; CRange "0" "1"]; [CRange "1" "2"; CDigit]; [CChar "0"; CRange "1" "9"];
             [CRange "1" "9"]; [CChar " "; CRange "1" "9"]]
    | Dy => [[CDigit; CDigit]]
    | DY => [[CDigit; CDigit; CDigit; CDigit]]
    | DH => [[CChar "2"; CRange "0" "3"]; [CRange "0" "1"; CDigit]; [CDigit]]
    | DM => [[CRange "0" "5"; CDigit]; [CDigit]]
    | DS => [[CChar "6"; CRange "0" "1"]; [CRange "0" "5"; CDigit]; [CDigit]]
    end.

(** One alternative of a group: a fixed sequence of character classes. *)
Fixpoint match_seq (ks : list cclass) (s : string) : option (string * string) :=
  match ks with
  | [] => Some (EmptyString, s)
  | k :: ks' =>
      match s with
      | String c s' =>
          if cclass_matches k c
          then match match_seq ks' s' with
               | Some (txt, rest) => Some (String c txt, rest)
               | None => None
               end
          else None
      | EmptyString => None
      end
  end.

Definition captures : Type := list (directive * string).

Section Backtracking.
Variable R : Type.

(** The alternatives of a group are tried in order; a later one is tried
    when the rest of the pattern fails after an earlier one. *)
Fixpoint first_alt (alts : list (list cclass)) (s : string)
         (k : string -> string -> option R) : option R :=
  match alts with
  | [] => None
  | a :: alts' =>
      match match_seq a s with
      | Some (txt, rest) =>
          match k txt rest with
          | Some r => Some r
          | None => first_alt alts' s k
          end
      | None => first_alt alts' s k
      end
  end.

(** [\s*], greedy: the longest run first, then shorter ones. *)
Fixpoint spaces_star (s : string) (k : string -> option R) : option R :=
  match s with
  | String c s' =>
      if is_space c
      then match spaces_star s' k with
           | Some r => Some r
           | None => k s
           end
      else k s
  | EmptyString => k s
  end.

Definition spaces_plus (s : string) (k : string -> option R) : option R :=
  match s with
  | String c s' => if is_space c then spaces_star s' k else None
  | EmptyString => None
  end.
End Backtracking.

Arguments first_alt {R} alts s k.
Arguments spaces_star {R} s k.
Arguments spaces_plus {R} s k.

(** [re.match]: the captured groups and the text left after the match. *)
Fixpoint match_pattern (p : list token) (s : string) (caps : captures)
  : option (captures * string) :=
  match p with
  | [] => Some (caps, s)
  | TLit c :: p' =>
      match s with
      | String c' s' => if Ascii.eqb c c' then match_pattern p' s' caps else None
      | EmptyString => None
      end
  | TSpaces :: p' => spaces_plus s (fun rest => match_pattern p' rest caps)
  | TGroup d alts :: p' =>
      first_alt alts s (fun txt rest => match_pattern p' rest ((d, txt) :: caps))
  end.

(** ["%m/%d/%y"], ["%m/%d/%y %H:%M:%S"] and ["%m/%d/%Y %H:%M:%S"]. *)
Definition date_tokens (year : directive) : list token :=
  [group_of Dm; TLit "/"; group_of Dd; TLit "/"; group_of year].

Definition time_tokens : list token :=
  [TSpaces; group_of DH; TLit ":"; group_of DM; TLit ":"; group_of DS].

Fixpoint capture_of (d : directive) (caps : captures) : option string :=
  match caps with
  | [] => None
  | (d', txt) :: caps' =>
      match d, d' with
      | Dm, Dm | Dd, Dd | Dy, Dy | DY, DY | DH, DH | DM, DM | DS, DS => Some txt
      | _, _ => capture_of d caps'
      end
  end.

(** [int(found_dict[d])], with the default of [_strptime] for a directive the
    format does not have. *)
Definition capture_int (d : directive) (caps : captures) (default : Z) : result Z :=
  match capture_of d caps with
  | Some txt => py_int txt
  | None => Ok default
  end.

Definition no_match : exn := ValueError "time data does not match format".
Definition unconverted : exn := ValueError "unconverted data remains".

(** [datetime.strptime(text, format)] for a format given as tokens. *)
Definition strptime (text : string) (format : list token) : result datetime :=
  match match_pattern format text [] with
  | None => Raise no_match
  | Some (caps, rest) =>
      if negb (String.eqb rest "") then Raise unconverted
      else
        yy <- capture_int Dy caps (-1) ;;
        y4 <- capture_int DY caps 1900 ;;
        let year := if yy <? 0 then y4
                    else if yy <=? 68 then yy + 2000 else yy + 1900 in
        m <- capture_int Dm caps 1 ;;
        d <- capture_int Dd caps 1 ;;
        hh <- capture_int DH caps 0 ;;
        mm <- capture_int DM caps 0 ;;
        ss <- capture_int DS caps 0 ;;
        py_datetime year m d hh mm ss
  end.

(** [strptime] wants a string: anything else is a [TypeError]. *)
Definition strptime_val (v : pyval) (format : list token) : result datetime :=
  match v with
  | PStr s => strptime s format
  | _ => Raise TypeError
  end.
(** ** Floats

    A Python [float] is a binary64 number; [/] on floats is the IEEE
    division.  [round(x, 1)] is CPython's [float.__round__]: infinities and
    NaN round to themselves; a finite [x] is turned into the decimal string
    that is correctly rounded to one digit after the point (ties to even, on
    the exact binary value of [x]), and that string is read back as the
    nearest float. *)

(** The integer nearest to [num / den] for [den > 0], ties to the even one. *)
Definition round_half_even (num den : Z) : Z :=
  let q := num / den in
  let r := num mod den in
  if 2 * r <? den then q
  else if den <? 2 * r then q + 1
  else if Z.even q then q else q + 1.

(** The float nearest to [n / 10] for [n >= 0], with sign [neg].  The quotient
    is taken with 64 extra bits and a sticky bit, so that the last rounding
    sees on which side of a midpoint the exact value lies. *)
Definition float_of_tenths (neg : bool) (n : Z) : float :=
  if n <=? 0 then SF2Prim (S754_zero neg)
  else
    let scaled := n * 2 ^ 64 in
    let q := scaled / 10 in
    let sticky := if scaled mod 10 =? 0 then 0 else 1 in
    SF2Prim (binary_round prec emax neg (Z.to_pos (2 * q + sticky)) (- 65)).

(** The number of tenths [round(x, 1)] settles on, for a finite [x] with a
    fractional part: [x] is [m * 2 ^ e] with [e < 0]. *)
Definition tenths_of (m : positive) (e : Z) : Z :=
  round_half_even (10 * Z.pos m) (2 ^ (- e)).

(** [round(x, 1)] on a float.  A float with a non-negative exponent is an
    integer and rounds to itself. *)
Definition py_round1 (x : float) : float :=
  match Prim2SF x with
  | S754_finite s m e =>
      if 0 <=? e then x else float_of_tenths s (tenths_of m e)
  | _ => x
  end.

(** [float(z)] as the division of an [int] by a float does it: the nearest
    float, and [OverflowError] when [z] is too large for one. *)
Definition py_float_of_int (z : Z) : result float :=
  match binary_normalize prec emax z 0 false with
  | S754_infinity _ => Raise OverflowError
  | f => Ok (SF2Prim f)
  end.

(** [v / d] for a float [d] that is not zero: [v] has to be a number ([bool]
    is a subclass of [int]). *)
Definition py_truediv (v : pyval) (d : float) : result float :=
  match v with
  | PFloat f => Ok (f / d)%float
  | PInt z => f <- py_float_of_int z ;; Ok (f / d)%float
  | PBool b => Ok ((if b then 1 else 0) / d)%float
  | _ => Raise TypeError
  end.

(** [v == 0.0]. *)
Definition py_eq_zero (v : pyval) : bool :=
  match v with
  | PFloat f => PrimFloat.eqb f 0%float
  | PInt z => z =? 0
  | PBool b => negb b
  | _ => false
  end.

(** [round(v, 1)]: a float is rounded, an [int] (or [bool]) comes back as the
    same [int], anything else has no [__round__]. *)
Definition py_round1_val (v : pyval) : result pyval :=
  match v with
  | PFloat f => Ok (PFloat (py_round1 f))
  | PInt z => Ok (PInt z)
  | PBool b => Ok (PInt (if b then 1 else 0))
  | _ => Raise TypeError
  end.

(** [round(x)] on a float: the nearest [int], ties to the even one;
    [ValueError] on NaN and [OverflowError] on an infinity. *)
Definition py_round_int (x : float) : result Z :=
  match Prim2SF x with
  | S754_zero _ => Ok 0
  | S754_finite s m e =>
      let n := if 0 <=? e then Z.pos m * 2 ^ e
               else round_half_even (Z.pos m) (2 ^ (- e)) in
      Ok (if s then - n else n)
  | S754_infinity _ => Raise OverflowError
  | S754_nan => Raise (ValueError "cannot convert float NaN to integer")
  end.

(** The constant [2.2046]: the binary64 number nearest to it, as in Python. *)
Definition pounds_per_kg : float := 2.2046%float.

(** ** Messages of [fit_tool]

    [FileIdMessage()] and [WeightScaleMessage()] start empty; an assignment
    [msg.field = value] sets the field.  The model keeps the values as they
    were assigned, in the order of their first assignment.  That order is the
    order of the statements of the converters; the order in which [fit_tool]
    writes the fields is [encoded_field_order] below. *)

Inductive message_kind : Type := FileIdMessage | WeightScaleMessage.

Inductive fit_field : Type :=
| F_type | F_manufacturer | F_product | F_product_name | F_serial_number
| F_number | F_time_created
| F_timestamp | F_weight | F_bone_mass | F_muscle_mass | F_percent_fat
| F_percent_hydration.

Definition fit_field_eqb (a b : fit_field) : bool :=
  match a, b with
  | F_type, F_type | F_manufacturer, F_manufacturer | F_product, F_product
  | F_product_name, F_product_name | F_serial_number, F_serial_number
  | F_number, F_number | F_time_created, F_time_created
  | F_timestamp, F_timestamp | F_weight, F_weight | F_bone_mass, F_bone_mass
  | F_muscle_mass, F_muscle_mass | F_percent_fat, F_percent_fat
  | F_percent_hydration, F_percent_hydration => true
  | _, _ => false
  end.

Record fit_message : Type := mk_message {
  msg_kind : message_kind;
  msg_fields : list (fit_field * pyval)
}.

Definition new_message (k : message_kind) : fit_message := mk_message k [].

Fixpoint assign (f : fit_field) (v : pyval) (fs : list (fit_field * pyval))
  : list (fit_field * pyval) :=
  match fs with
  | [] => [(f, v)]
  | (f', v') :: fs' =>
      if fit_field_eqb f f' then (f, v) :: fs' else (f', v') :: assign f v fs'
  end.

(** [msg.f = v]. *)
Definition set_field (f : fit_field) (v : pyval) (m : fit_message) : fit_message :=
  mk_message (msg_kind m) (assign f v (msg_fields m)).

Fixpoint lookup_field (f : fit_field) (fs : list (fit_field * pyval)) : option pyval :=
  match fs with
  | [] => None
  | (f', v) :: fs' => if fit_field_eqb f f' then Some v else lookup_field f fs'
  end.

(** [msg.f]. *)
Definition get_field (f : fit_field) (m : fit_message) : option pyval :=
  lookup_field f (msg_fields m).

Definition has_field (f : fit_field) (m : fit_message) : bool :=
  match get_field f m with
  | Some _ => true
  | None => false
  end.

(** The field names of a message, in the order of the assignments. *)
Definition field_order (m : fit_message) : list fit_field := map fst (msg_fields m).

(** The fields of a weight-scale message that the converters use, in the
    order of the FIT profile (field numbers 253, 0, 1, 2, 4, 5). *)
Definition weight_scale_profile : list fit_field :=
  [F_timestamp; F_weight; F_percent_fat; F_percent_hydration; F_bone_mass;
   F_muscle_mass].

(** The order in which [fit_tool] writes the fields of a weight-scale
    message: the fields that hold a value, in profile order, whatever the
    order of the assignments was. *)
Definition encoded_field_order (m : fit_message) : list fit_field :=
  filter (fun f => has_field f m) weight_scale_profile.

(** A setter stores its value in an unsigned integer field of the file and
    raises [FitEncodingError] when the value does not fit. *)
Definition uint16_max : Z := 65535.
Definition uint32_max : Z := 4294967295.

Definition fit_store (max encoded : Z) : result Z :=
  if (0 <=? encoded) && (encoded <=? max) then Ok encoded
  else Raise FitEncodingError.

(** [timestamp] and [time_created] take milliseconds since 1970 and are
    stored as the seconds since the FIT epoch, 1989-12-31 (offset
    [-631065600000], scale [0.001]): [round((value + offset) * scale)], in 32
    bits. *)
Definition fit_date_time (value : Z) : result Z :=
  shifted <- py_float_of_int (value - 631065600000) ;;
  encoded <- py_round_int (shifted * 0.001)%float ;;
  fit_store uint32_max encoded.

(** [weight], [percent_fat], [percent_hydration], [bone_mass] and
    [muscle_mass] are stored in hundredths (scale [100]), in 16 bits.  The
    converters assign a float there, or the [int] that [round] gave back for a
    body fat that was an [int]. *)
Definition fit_hundredths (value : pyval) : result Z :=
  match value with
  | PFloat f => encoded <- py_round_int (f * 100)%float ;; fit_store uint16_max encoded
  | PInt z => fit_store uint16_max (z * 100)
  | PBool b => fit_store uint16_max (if b then 100 else 0)
  | _ => Raise TypeError
  end.

(** [fit_tool] types [timestamp] and [time_created] as [int]: what the model
    accepts there.  Another value is outside the model. *)
Definition as_timestamp (v : pyval) : result Z :=
  match v with
  | PInt z => Ok z
  | _ => Raise Unmodelled
  end.

(** [x.timestamp], the sort key of the weight entries: the getter decodes
    what the setter stored, so it gives the timestamp back to the whole
    second.  The key of the model is the stored number of seconds; the value
    read back grows with it. *)
Definition msg_timestamp (m : fit_message) : Z :=
  match get_field F_timestamp m with
  | Some (PInt z) => match fit_date_time z with
                     | Ok encoded => encoded
                     | Raise _ => 0
                     end
  | _ => 0
  end.

(** ** [list.sort(key=...)]

    Python's sort is stable, and a stable sort by a total order on the keys
    has one result: the model is the insertion sort that puts an element in
    front of the first element whose key is not smaller. *)
Section StableSort.
Context {A : Type} (key : A -> Z).

Fixpoint insert_by (x : A) (l : list A) : list A :=
  match l with
  | [] => [x]
  | y :: l' => if key x <=? key y then x :: l else y :: insert_by x l'
  end.

Definition sort_by (l : list A) : list A := fold_right insert_by [] l.

(** Order of the keys. *)
Definition key_le (a b : A) : Prop := key a <= key b.

(** The elements with key [t], in list order. *)
Definition with_key (t : Z) (l : list A) : list A :=
  filter (fun a => key a =? t) l.
End StableSort.

(** The weight-scale message both converters build for one entry, statement by
    statement: [timestamp], [weight], [bone_mass], [muscle_mass], then
    [percent_fat] under [if body_fat is not None], then [percent_hydration]. *)
Definition weight_scale_message (unix_timestamp : Z) (weight_kg : float)
           (body_fat : option pyval) : fit_message :=
  let weight_msg := new_message WeightScaleMessage in
  let weight_msg := set_field F_timestamp (PInt unix_timestamp) weight_msg in
  let weight_msg := set_field F_weight (PFloat weight_kg) weight_msg in
  let weight_msg := set_field F_bone_mass (PFloat 0%float) weight_msg in
  let weight_msg := set_field F_muscle_mass (PFloat 0%float) weight_msg in
  let weight_msg := match body_fat with
                    | Some fat => set_field F_percent_fat fat weight_msg
                    | None => weight_msg
                    end in
  set_field F_percent_hydration (PFloat 0%float) weight_msg.

(** The setters of the weight-scale message, in the order of the statements:
    the first value that does not fit raises.  The three values [0.0] always
    fit. *)
Definition weight_scale_stored (unix_timestamp : Z) (weight_kg : float)
           (body_fat : option pyval) : result unit :=
  fit_date_time unix_timestamp ;;;
  fit_hundredths (PFloat weight_kg) ;;;
  match body_fat with
  | Some fat => fit_hundredths fat ;;; Ok tt
  | None => Ok tt
  end.

(** The body-fat lines of both converters:
    [body_fat = entry.get('fat', 0.0)], then [None] when it equals [0.0] and
    [round(body_fat, 1)] otherwise. *)
Definition body_fat_of (entry : pyval) : result (option pyval) :=
  body_fat <- py_get entry "fat" (PFloat 0%float) ;;
  if py_eq_zero body_fat then Ok None
  else (r <- py_round1_val body_fat ;; Ok (Some r)).

(** The file-id message both converters start from, before [time_created]. *)
Definition file_id_message : fit_message :=
  let file_id_msg := new_message FileIdMessage in
  let file_id_msg := set_field F_type (PInt 4) file_id_msg in
  let file_id_msg := set_field F_manufacturer (PInt 255) file_id_msg in
  let file_id_msg := set_field F_product (PInt 1) file_id_msg in
  let file_id_msg := set_field F_product_name (PStr "Health Sync") file_id_msg in
  let file_id_msg := set_field F_serial_number (PInt 1701) file_id_msg in
  set_field F_number (PInt 0) file_id_msg.

(** ** Indexing and iteration on parsed JSON *)

(** [v[0]]. *)
Definition py_index0 (v : pyval) : result pyval :=
  match v with
  | PList (x :: _) => Ok x
  | PList [] => Raise IndexError
  | PStr (String c _) => Ok (PStr (String c EmptyString))
  | PStr EmptyString => Raise IndexError
  | PDict _ => Raise KeyError
  | _ => Raise TypeError
  end.

Fixpoint chars_of (s : string) : list pyval :=
  match s with
  | EmptyString => []
  | String c s' => PStr (String c EmptyString) :: chars_of s'
  end.

(** [for entry in v]: the elements of a list, the characters of a string, the
    keys of a dict. *)
Definition py_iter (v : pyval) : result (list pyval) :=
  match v with
  | PList l => Ok l
  | PStr s => Ok (chars_of s)
  | PDict d => Ok (map (fun kv => PStr (fst kv)) d)
  | _ => Raise TypeError
  end.

(** A [for] loop whose body can raise: the first exception ends it. *)
Fixpoint map_result {A B : Type} (f : A -> result B) (l : list A) : result (list B) :=
  match l with
  | [] => Ok []
  | x :: l' =>
      y <- f x ;;
      ys <- map_result f l' ;;
      Ok (y :: ys)
  end.

Definition bytes : Type := list Byte.byte.

(** [f"{week_number}-{year}"]. *)
Definition week_year_text (week_number year : Z) : string :=
  str_of_Z week_number ++ "-" ++ str_of_Z year.

(** [f"Weight {week_year} Fitbit.fit"]. *)
Definition weight_file_name (week_year : string) : string :=
  "Weight " ++ week_year ++ " Fitbit.fit".

(** ** [backend/converter.py] *)

Module converter.

(** The converter object: its one attribute. *)
Record FitbitConverter : Type := mk_converter { conversion_count : Z }.

(** [round(pounds / 2.2046, 1)]. *)
Definition convert_pounds_to_kg (pounds : pyval) : result float :=
  q <- py_truediv pounds pounds_per_kg ;;
  Ok (py_round1 q).

(** The body of the [try] comes first; [except (ValueError, IndexError)]
    turns these two into [None], any other exception goes on. *)
Definition extract_week_year_from_filename (filename : string) : result (option string) :=
  let base_name := remove_all ".json" filename in
  let parts := split "-" base_name in
  let attempt :=
    if (4 <=? List.length parts)%nat && String.eqb (nth 0 parts "") "weight"
    then
      year <- py_int (nth 1 parts "") ;;
      month <- py_int (nth 2 parts "") ;;
      day <- py_int (nth 3 parts "") ;;
      date_obj <- py_datetime year month day 0 0 0 ;;
      Ok (Some (week_year_text (iso_week date_obj) year))
    else Ok None in
  match attempt with
  | Raise (ValueError _) | Raise IndexError => Ok None
  | r => r
  end.

Definition required_fields : list string := ["logId"; "weight"; "date"; "time"].

(** [all(field in first_entry for field in fields)]: the generator is
    consumed up to the first [False]. *)
Fixpoint all_in (fields : list string) (first_entry : pyval) : result bool :=
  match fields with
  | [] => Ok true
  | field :: fields' =>
      b <- py_in field first_entry ;;
      if b then all_in fields' first_entry else Ok false
  end.

Definition validate_google_takeout_format (data : pyval) : result bool :=
  match data with
  | PList [] => Ok false
  | PList (first_entry :: _) => all_in required_fields first_entry
  | _ => Ok false
  end.

(** The [ValueError] of [process_json_data]: the format error. *)
Definition invalid_format : exn :=
  ValueError "Invalid Google Takeout format. Expected weight data with logId, weight, date, time fields.".

(** Lines 69-76: the week and year of the first entry's date, ["1-2025"]
    when [strptime] raises [ValueError]. *)
Definition first_entry_week_year (first_entry : pyval) : result string :=
  date <- py_getitem first_entry "date" ;;
  match strptime_val date (date_tokens Dy) with
  | Ok date_obj => Ok (week_year_text (iso_week date_obj) (dt_year date_obj))
  | Raise (ValueError _) => Ok "1-2025"
  | Raise e => Raise e
  end.

(** Lines 65-76: the local variable [week_year] of [process_json_data]. *)
Definition process_week_year (json_data : pyval) (filename : string) : result string :=
  week_year <- extract_week_year_from_filename filename ;;
  match week_year with
  | Some w => Ok w
  | None =>
      first_entry <- py_index0 json_data ;;
      first_entry_week_year first_entry
  end.

(** The body of the loop over the entries (lines 98-125). *)
Definition weight_entry (entry : pyval) : result fit_message :=
  unix_timestamp <- py_getitem entry "logId" ;;
  weight <- py_getitem entry "weight" ;;
  weight_kg <- convert_pounds_to_kg weight ;;
  body_fat <- body_fat_of entry ;;
  timestamp <- as_timestamp unix_timestamp ;;
  weight_scale_stored timestamp weight_kg body_fat ;;;
  Ok (weight_scale_message timestamp weight_kg body_fat).

(** Lines 82-94: the file-id message, [time_created] being the first
    entry's [logId]. *)
Definition file_id_of (json_data : pyval) : result fit_message :=
  first_entry <- py_index0 json_data ;;
  log_id <- py_getitem first_entry "logId" ;;
  time_created <- as_timestamp log_id ;;
  fit_date_time time_created ;;;
  Ok (set_field F_time_created (PInt time_created) file_id_message).

(** Lines 97-125: [weight_entries] after the loop, in the order of the
    appends, which is the order of the input. *)
Definition weight_entries_appended (json_data : pyval) : result (list fit_message) :=
  entries <- py_iter json_data ;;
  map_result weight_entry entries.

(** Lines 96-128: the weight messages after [weight_entries.sort]. *)
Definition weight_entries_of (json_data : pyval) : result (list fit_message) :=
  weight_entries <- weight_entries_appended json_data ;;
  Ok (sort_by msg_timestamp weight_entries).

Definition get_output_filename (input_filename : string) : result string :=
  week_year <- extract_week_year_from_filename input_filename ;;
  match week_year with
  | Some w => Ok (weight_file_name w)
  | None => Ok "Weight Converted Fitbit.fit"
  end.

Section Encoder.
(** The builder of [fit_tool]: the messages added, in order, to the bytes
    of the file ([builder.add], [builder.build], [fit_file.to_bytes]). *)
Variable fit_to_bytes : list fit_message -> result bytes.

(** The method returns [(fit_bytes, entry_count)]; the model returns the
    converter after the call as well.  When the method raises, the
    counter was not touched. *)
Definition process_json_data (self : FitbitConverter) (json_data : pyval)
           (filename : string) : result (FitbitConverter * (bytes * Z)) :=
  valid <- validate_google_takeout_format json_data ;;
  if negb valid then Raise invalid_format
  else
    process_week_year json_data filename ;;;
    file_id_msg <- file_id_of json_data ;;
    weight_entries <- weight_entries_of json_data ;;
    fit_bytes <- fit_to_bytes (file_id_msg :: weight_entries) ;;
    Ok (mk_converter (conversion_count self + 1),
        (fit_bytes, Z.of_nat (List.length weight_entries))).

(** The loop of [convert_fitbit_to_garmin]; an exception is printed and
    raised again, so the first one ends the call.  The console output is
    left out. *)
Fixpoint convert_files (converter : FitbitConverter)
         (json_files : list (string * pyval)) : result (list (string * bytes)) :=
  match json_files with
  | [] => Ok []
  | (filename, json_data) :: rest =>
      r <- process_json_data converter json_data filename ;;
      let '(converter', (fit_bytes, _)) := r in
      output_filename <- get_output_filename filename ;;
      results <- convert_files converter' rest ;;
      Ok ((output_filename, fit_bytes) :: results)
  end.

Definition convert_fitbit_to_garmin (json_files : list (string * pyval))
  : result (list (string * bytes)) :=
  convert_files (mk_converter 0) json_files.
End Encoder.

End converter.

(** ** [tested/convert_json_to_fit.py] *)

Module convert_json_to_fit.

(** What the script prints, one constructor per [print], with the values the
    line shows. *)
Inductive event : Type :=
| Processing (json_file : string)
| NoData (json_file : string)
| NoWeekNumber (json_file : string)
| ErrorParsingDate (date_str : string) (time_str : pyval)
| Created (output_filename : string) (entries : Z)
| ErrorCreatingFile.

(** A computation that prints and can raise: the lines printed up to the
    end or up to the exception, and the result. *)
Definition io (A : Type) : Type := list event * result A.

Definition io_ret {A : Type} (a : A) : io A := ([], Ok a).

Definition io_print (e : event) : io unit := ([e], Ok tt).

Definition io_lift {A : Type} (r : result A) : io A := ([], r).

Definition io_bind {A B : Type} (m : io A) (k : A -> io B) : io B :=
  match m with
  | (out, Ok a) => let (out', r) := k a in ((out ++ out')%list, r)
  | (out, Raise e) => (out, Raise e)
  end.

Declare Scope io_scope.
Delimit Scope io_scope with io.
Notation "x <~ m ;; k" := (io_bind m (fun x => k))
  (at level 61, m at next level, right associativity) : io_scope.
Notation "m ~~> k" := (io_bind m (fun _ => k))
  (at level 61, right associativity) : io_scope.
Local Open Scope io_scope.

(** The year part decides the format; [except ValueError] prints and
    returns [None]; the [IndexError] of [split('/')[2]] and the
    [AttributeError] of a date that is not a string are not caught.  The
    timestamp is [int(timestamp * 1000)]: whole seconds times 1000 are
    below [2 ^ 53], so the float arithmetic is exact.  A time that is not a
    string is formatted into the text to parse, where it ends a text that
    [strptime] refuses: the text of a number has no colon, and the text of
    [None], of a [bool], of a list or of a dict does not end with a digit. *)
Definition convert_date_to_unix_timestamp (date_str time_str : pyval) : io (option Z) :=
  match date_str with
  | PStr d =>
      match nth_error (split "/" d) 2 with
      | None => io_lift (Raise IndexError)
      | Some year_part =>
          match time_str with
          | PStr t =>
              let format : list token :=
                (date_tokens (if (String.length year_part =? 2)%nat then Dy else DY)
                 ++ time_tokens)%list in
              match strptime (d ++ " " ++ t) format with
              | Ok date_obj => io_ret (Some (epoch_seconds date_obj * 1000))
              | Raise (ValueError _) =>
                  io_print (ErrorParsingDate d time_str) ~~> io_ret None
              | Raise e => io_lift (Raise e)
              end
          | _ => io_print (ErrorParsingDate d time_str) ~~> io_ret None
          end
      end
  | _ => io_lift (Raise AttributeError)
  end.

Definition convert_pounds_to_kg (pounds : pyval) : result float :=
  q <- py_truediv pounds pounds_per_kg ;;
  Ok (py_round1 q).

(** No [try] here: every exception of [int] and [datetime] goes on. *)
Definition get_week_number_from_filename (filename : string) : result (option string) :=
  let base_name := remove_all ".json" (last (split "/" filename) "") in
  let parts := split "-" base_name in
  if (4 <=? List.length parts)%nat
  then
    year <- py_int (nth 1 parts "") ;;
    month <- py_int (nth 2 parts "") ;;
    day <- py_int (nth 3 parts "") ;;
    date_obj <- py_datetime year month day 0 0 0 ;;
    Ok (Some (week_year_text (iso_week date_obj) year))
  else Ok None.

(** [if not unix_timestamp] and [if creation_timestamp]: [None] and [0]
    are both false. *)
Definition timestamp_truthy (t : option Z) : bool :=
  match t with
  | Some z => negb (z =? 0)
  | None => false
  end.

(** The body of the loop over the entries (lines 94-123): [None] stands
    for [continue]. *)
Definition weight_entry (entry : pyval) : io (option fit_message) :=
  date_str <~ io_lift (py_getitem entry "date") ;;
  time_str <~ io_lift (py_getitem entry "time") ;;
  unix_timestamp <~ convert_date_to_unix_timestamp date_str time_str ;;
  if negb (timestamp_truthy unix_timestamp) then io_ret None
  else
    weight <~ io_lift (py_getitem entry "weight") ;;
    weight_kg <~ io_lift (convert_pounds_to_kg weight) ;;
    body_fat <~ io_lift (body_fat_of entry) ;;
    let timestamp := match unix_timestamp with Some z => z | None => 0 end in
    io_lift (weight_scale_stored timestamp weight_kg body_fat) ~~>
    io_ret (Some (weight_scale_message timestamp weight_kg body_fat)).

(** The loop: [weight_entries] in the order of the appends. *)
Fixpoint weight_entries_loop (entries : list pyval) : io (list fit_message) :=
  match entries with
  | [] => io_ret []
  | entry :: rest =>
      m <~ weight_entry entry ;;
      ms <~ weight_entries_loop rest ;;
      io_ret (match m with Some msg => msg :: ms | None => ms end)
  end.

(** Lines 76-90: the file-id message; [time_created] is set only under
    [if creation_timestamp]. *)
Definition file_id_of (data : pyval) : io fit_message :=
  first_entry <~ io_lift (py_index0 data) ;;
  date_str <~ io_lift (py_getitem first_entry "date") ;;
  time_str <~ io_lift (py_getitem first_entry "time") ;;
  creation_timestamp <~ convert_date_to_unix_timestamp date_str time_str ;;
  match creation_timestamp with
  | Some z => if timestamp_truthy creation_timestamp
              then io_lift (fit_date_time z) ~~>
                   io_ret (set_field F_time_created (PInt z) file_id_message)
              else io_ret file_id_message
  | None => io_ret file_id_message
  end.

(** Lines 93-123: [weight_entries] after the loop. *)
Definition weight_entries_appended (data : pyval) : io (list fit_message) :=
  entries <~ io_lift (py_iter data) ;;
  weight_entries_loop entries.

(** Lines 92-126: the weight messages after [weight_entries.sort]. *)
Definition weight_entries_of (data : pyval) : io (list fit_message) :=
  weight_entries <~ weight_entries_appended data ;;
  io_ret (sort_by msg_timestamp weight_entries).

Section Encoder.
(** The builder of [fit_tool], as in [converter]: here [builder.build]
    and [fit_file.to_file] run under [except Exception]. *)
Variable fit_to_bytes : list fit_message -> result bytes.

(** [data] is what [json.load] read from [json_file].  The result is
    [None] where the function returns [None], and the path returned with
    the bytes written there otherwise. *)
Definition create_fit_file_from_json (json_file : string) (data : pyval)
           (output_dir : string) : io (option (string * bytes)) :=
  io_print (Processing json_file) ~~>
  if negb (py_truthy data) then io_print (NoData json_file) ~~> io_ret None
  else
    week_year <~ io_lift (get_week_number_from_filename json_file) ;;
    match week_year with
    | None => io_print (NoWeekNumber json_file) ~~> io_ret None
    | Some w =>
        file_id_msg <~ file_id_of data ;;
        weight_entries <~ weight_entries_of data ;;
        match fit_to_bytes (file_id_msg :: weight_entries) with
        | Ok fit_bytes =>
            let output_filename := weight_file_name w in
            let output_path := output_dir ++ "/" ++ output_filename in
            io_print (Created output_filename (Z.of_nat (List.length weight_entries))) ~~>
            io_ret (Some (output_path, fit_bytes))
        | Raise _ => io_print ErrorCreatingFile ~~> io_ret None
        end
    end.
End Encoder.

End convert_json_to_fit.

(** ** [backend/main.py]: the validation endpoint *)

Module main.

(** The answers with [is_valid=False], by their [error_message]:
    "File must contain an array of weight entries", "Missing required
    fields: ..." with the fields joined by commas, and "Validation error: ..."
    with the text of the exception caught. *)
Inductive validation_error : Type :=
| NotAnArray
| MissingFields (fields : list string)
| ValidationException (e : exn).

(** The model [FileValidationResult] of [models.py]. *)
Record FileValidationResult : Type := mk_validation {
  filename : string;
  is_valid : bool;
  entry_count : option Z;
  date_range : option string;
  error_message : option validation_error
}.

Definition invalid (name : string) (why : validation_error) : FileValidationResult :=
  mk_validation name false None None (Some why).

(** [[field for field in fields if field not in first_entry]]: every field
    is tested, and the first [in] that raises ends the comprehension. *)
Fixpoint missing_fields (fields : list string) (first_entry : pyval)
  : result (list string) :=
  match fields with
  | [] => Ok []
  | field :: fields' =>
      b <- py_in field first_entry ;;
      missing <- missing_fields fields' first_entry ;;
      Ok (if b then missing else field :: missing)
  end.

Section Format.
(** [str(v)], as the f-string of [date_range] formats a value. *)
Variable py_str : pyval -> string.

(** The body of the loop of [validate_files] (lines 159-202) for one uploaded
    file: the [try] comes first, and [except Exception] turns any exception
    into an invalid answer. *)
Definition validate_file (name : string) (data : pyval) : FileValidationResult :=
  let attempt : result FileValidationResult :=
    match data with
    | PList ((first_entry :: _) as entries) =>
        missing <- missing_fields converter.required_fields first_entry ;;
        match missing with
        | _ :: _ => Ok (invalid name (MissingFields missing))
        | [] =>
            dates <- map_result (fun entry => py_get entry "date" (PStr "")) entries ;;
            let range :=
              match dates with
              | [] => "Unknown"
              | first_date :: _ =>
                  py_str first_date ++ " to " ++ py_str (last dates (PStr ""))
              end in
            Ok (mk_validation name true (Some (Z.of_nat (List.length entries)))
                              (Some range) None)
        end
    | _ => Ok (invalid name NotAnArray)
    end in
  match attempt with
  | Ok answer => answer
  | Raise e => invalid name (ValidationException e)
  end.

(** What the endpoint answers: the list of results, or the [HTTPException]
    with its status code. *)
Inductive response (A : Type) : Type :=
| Respond (a : A)
| HTTPException (status_code : Z) (detail : string).

Fixpoint uploaded (upload_id : string) (uploaded_files : list (string * list (string * pyval)))
  : option (list (string * pyval)) :=
  match uploaded_files with
  | [] => None
  | (id, file_data) :: rest =>
      if String.eqb upload_id id then Some file_data else uploaded upload_id rest
  end.

(** [validate_files] on the dict [uploaded_files], each uploaded file given by
    its name and parsed data.  The loop body catches every exception, so the
    outer [except Exception] has nothing to catch. *)
Definition validate_files (uploaded_files : list (string * list (string * pyval)))
           (upload_id : string) : response (list FileValidationResult) :=
  match uploaded upload_id uploaded_files with
  | None => HTTPException _ 404 "Upload ID not found"
  | Some file_data =>
      Respond _ (map (fun file_info => validate_file (fst file_info) (snd file_info))
                     file_data)
  end.
End Format.

End main.

(** ** Notions of the specification *)

(** What the caller of [process_json_data] gets: the pair returned, or the
    exception. *)
Definition returned (r : result (converter.FitbitConverter * (bytes * Z)))
  : result (bytes * Z) :=
  match r with
  | Ok (_, x) => Ok x
  | Raise e => Raise e
  end.

(** The specification's reading of [time_created]: the timestamp of the
    earliest record, which is the first one after the sort. *)
Definition time_created_from_earliest (json_data : pyval) : Prop :=
  forall file_id_msg first rest,
    converter.file_id_of json_data = Ok file_id_msg ->
    converter.weight_entries_of json_data = Ok (first :: rest) ->
    get_field F_time_created file_id_msg = get_field F_timestamp first.

(** The order the specification requires: [percent_fat], when there is one,
    between [muscle_mass] and [percent_hydration]. *)
Definition expected_field_order (with_fat : bool) : list fit_field :=
  ([F_timestamp; F_weight; F_bone_mass; F_muscle_mass]
   ++ (if with_fat then [F_percent_fat] else [])
   ++ [F_percent_hydration])%list.

(** The assignments of a message are made in that order. *)
Definition well_ordered (m : fit_message) : Prop :=
  msg_kind m = WeightScaleMessage
  /\ field_order m = expected_field_order (has_field F_percent_fat m).

(** The fields of a message are written in that order. *)
Definition encoded_as_specified (m : fit_message) : Prop :=
  encoded_field_order m = expected_field_order (has_field F_percent_fat m).

(** The timestamp a record was given, in milliseconds. *)
Definition assigned_timestamp (m : fit_message) : Z :=
  match get_field F_timestamp m with
  | Some (PInt z) => z
  | _ => 0
  end.

(** The specification's reading of the order of the records: ascending in
    the timestamps of the records, which are in milliseconds. *)
Definition sorted_by_assigned_timestamp (l : list fit_message) : Prop :=
  StronglySorted (key_le assigned_timestamp) l.

(** The key of a record is what the file holds for its timestamp: the
    setter accepted the timestamp and stored that number of seconds. *)
Definition timestamp_stored (m : fit_message) : Prop :=
  fit_date_time (assigned_timestamp m) = Ok (msg_timestamp m).

(** Ascending in the timestamps as the file holds them, in whole seconds. *)
Definition sorted_by_timestamp (l : list fit_message) : Prop :=
  StronglySorted (key_le msg_timestamp) l.

(** Records that the file holds with the same timestamp are in [output] in
    the order they have in [input]. *)
Definition keeps_input_order (input output : list fit_message) : Prop :=
  forall t, with_key msg_timestamp t output = with_key msg_timestamp t input.

(** [r] is [x] rounded to one decimal place: a float that is an integer, a
    zero, an infinity or NaN is its own rounding; otherwise [x] is
    [m * 2 ^ e] with [e < 0], and [r] is the float written [n / 10] for a
    number of tenths [n] at most half a tenth away from [|x|]. *)
Definition rounded_to_one_decimal (x r : float) : Prop :=
  match Prim2SF x with
  | S754_finite s m e =>
      if 0 <=? e then r = x
      else exists n,
          0 <= n
          /\ 2 * Z.abs (10 * Z.pos m - n * 2 ^ (- e)) <= 2 ^ (- e)
          /\ r = float_of_tenths s n
  | _ => r = x
  end.

(** The message has no percent_fat, and none is written. *)
Definition percent_fat_absent (m : fit_message) : Prop :=
  get_field F_percent_fat m = None /\ ~ In F_percent_fat (encoded_field_order m).

(** The message has the percent_fat [v], and it is written. *)
Definition percent_fat_is (v : pyval) (m : fit_message) : Prop :=
  get_field F_percent_fat m = Some v /\ In F_percent_fat (encoded_field_order m).

(** The body-fat rule of the specification for a raw value that is a number:
    0 stands for no measure; another float is rounded to one decimal place;
    [round] gives an [int] back as it is, and [True] as 1. *)
Definition body_fat_as_specified (raw : pyval) (m : fit_message) : Prop :=
  match raw with
  | PFloat f =>
      if (f =? 0)%float then percent_fat_absent m
      else percent_fat_is (PFloat (py_round1 f)) m
           /\ rounded_to_one_decimal f (py_round1 f)
  | PInt z => if z =? 0 then percent_fat_absent m else percent_fat_is (PInt z) m
  | PBool b => if b then percent_fat_is (PInt 1) m else percent_fat_absent m
  | _ => False
  end.

(** The text captured for the two-digit year is made of two digits. *)
Definition two_digits (txt : string) : Prop :=
  exists c1 c2, txt = String c1 (String c2 EmptyString)
                /\ is_digit c1 = true /\ is_digit c2 = true.

Definition year_captured (caps : captures) : Prop :=
  exists txt, capture_of Dy caps = Some txt /\ two_digits txt.

(** Tokens after the year group: any but another year group. *)
Definition no_year (tok : token) : Prop :=
  match tok with
  | TGroup Dy _ => False
  | _ => True
  end.

(** A JSON object. *)
Definition is_object (v : pyval) : bool :=
  match v with
  | PDict _ => true
  | _ => false
  end.

(** A line of the script that reports an unparsable date. *)
Definition is_parse_error (e : convert_json_to_fit.event) : Prop :=
  exists d t, e = convert_json_to_fit.ErrorParsingDate d t.

(** A JSON number: what [/] and [round] accept. *)
Definition is_number (v : pyval) : bool :=
  match v with
  | PInt _ | PFloat _ | PBool _ => true
  | _ => false
  end.

(** What the web-service converter needs of a record to convert it: an object
    with a [logId] entry, a numeric [weight] and, when there is a [fat] entry,
    a numeric one. *)
Definition convertible_record (entry : pyval) : Prop :=
  exists d log_id weight,
    entry = PDict d
    /\ dict_lookup "logId" d = Some log_id
    /\ dict_lookup "weight" d = Some weight
    /\ is_number weight = true
    /\ match dict_lookup "fat" d with
       | Some fat => is_number fat = true
       | None => True
       end.

(** The fields of a [datetime] are in their ranges. *)
Definition valid_datetime (dt : datetime) : Prop :=
  1 <= dt_year dt <= 9999
  /\ 1 <= dt_month dt <= 12
  /\ 1 <= dt_day dt <= days_in_month (dt_year dt) (dt_month dt)
  /\ 0 <= dt_hour dt <= 23
  /\ 0 <= dt_minute dt <= 59
  /\ 0 <= dt_second dt <= 59.

(** Calendar order: earlier year, month, day, hour, minute or second. *)
Definition earlier (a b : datetime) : Prop :=
  dt_year a < dt_year b
  \/ dt_year a = dt_year b
     /\ (dt_month a < dt_month b
         \/ dt_month a = dt_month b
            /\ (dt_day a < dt_day b
                \/ dt_day a = dt_day b
                   /\ (dt_hour a < dt_hour b
                       \/ dt_hour a = dt_hour b
                          /\ (dt_minute a < dt_minute b
                              \/ dt_minute a = dt_minute b
                                 /\ dt_second a < dt_second b)))).

(** The year directive the script chooses for a date: [%y] when the text
    after the second slash has two characters, [%Y] otherwise. *)
Definition year_directive (year_part : string) : directive :=
  if (String.length year_part =? 2)%nat then Dy else DY.

(** The date and time strings of a record parse to [dt], in the format the
    script chooses for them. *)
Definition parses_to (date_str time_str : pyval) (dt : datetime) : Prop :=
  exists d t year_part,
    date_str = PStr d /\ time_str = PStr t
    /\ nth_error (split "/" d) 2 = Some year_part
    /\ strptime (d ++ " " ++ t)
                (date_tokens (year_directive year_part) ++ time_tokens) = Ok dt.

(** ** Inputs to run the model on *)

(** One object of a Takeout weight file. *)
Definition takeout_entry (log_id : Z) (weight : float) (fat : option float)
           (date time : string) : pyval :=
  PDict ([("logId", PInt log_id); ("weight", PFloat weight)]
         ++ match fat with Some f => [("fat", PFloat f)] | None => [] end
         ++ [("date", PStr date); ("time", PStr time)])%list.

(** The end-to-end scenario of the specification, ["weight-2024-06-01.json"]. *)
Definition scenario_data : pyval :=
  PList [takeout_entry 1717200000000 180 None "6/1/24" "08:00:00"].

(** Three records out of order, two of them at the same instant. *)
Definition unordered_data : pyval :=
  PList [takeout_entry 1717315200000 180 (Some 0.05%float) "6/2/24" "08:00:00";
         takeout_entry 1717228800000 181 None "6/1/24" "08:00:00";
         takeout_entry 1717315200000 182 (Some 21.5%float) "6/2/24" "08:00:00"].

(** Two records within one second, the later one first. *)
Definition same_second_data : pyval :=
  PList [takeout_entry 1717228800400 180 None "6/1/24" "08:00:00";
         takeout_entry 1717228800300 181 None "6/1/24" "08:00:00"].

(** A record whose body fat is [null]. *)
Definition null_fat_data : pyval :=
  PList [PDict [("logId", PInt 1717228800000); ("weight", PFloat 180);
                ("fat", PNone); ("date", PStr "6/1/24"); ("time", PStr "08:00:00")]].

(** A stand-in for the encoder of [fit_tool], to run the converters: one byte
    per message, the weight records told apart by their rounded weight. *)
Definition sample_encoder (msgs : list fit_message) : result bytes :=
  Ok (map (fun m =>
             match get_field F_weight m with
             | Some (PFloat w) =>
                 match Prim2SF w with
                 | S754_finite _ mant e =>
                     match Byte.of_N (Z.to_N (Z.shiftl (Z.pos mant) e mod 256)) with
                     | Some b => b
                     | None => Byte.x00
                     end
                 | _ => Byte.x00
                 end
             | _ => Byte.xff
             end) msgs).

(** Three records, the second with a date written with dashes. *)
Definition dashed_date_data : pyval :=
  PList [takeout_entry 1 180 None "6/1/24" "08:00:00";
         takeout_entry 2 181 None "2024-06-02" "08:00:00";
         takeout_entry 3 182 None "6/3/24" "08:00:00"].

(** Three records, the second at 1970-01-01 00:00:00. *)
Definition epoch_data : pyval :=
  PList [takeout_entry 1 180 None "6/1/24" "08:00:00";
         takeout_entry 2 181 None "1/1/70" "00:00:00";
         takeout_entry 3 182 None "6/3/24" "08:00:00"].

(** Four records for the script: one with month 13, one at the epoch. *)
Definition mixed_data : pyval :=
  PList [takeout_entry 1 180 None "6/1/24" "08:00:00";
         takeout_entry 2 181 None "13/1/24" "08:00:00";
         takeout_entry 3 182 None "1/1/70" "00:00:00";
         takeout_entry 4 183 None "6/3/24" "08:00:00"].

(** A record whose logId is the timestamp of its date and time. *)
Definition consistent_entry : pyval :=
  takeout_entry 1717228800000 180 (Some 21.5%float) "6/1/24" "08:00:00".

(** A batch whose first record has a number for date. *)
Definition numeric_date_data : pyval :=
  PList [PDict [("logId", PInt 1717228800000); ("weight", PFloat 180);
                ("date", PInt 20240601); ("time", PStr "08:00:00")]].

Example split_weight_name :
  split "-" "weight-2024-06-01" = ["weight"; "2024"; "06"; "01"].
Proof. reflexivity. Qed.

Example remove_json_suffix :
  remove_all ".json" "weight-2024-06-01.json" = "weight-2024-06-01".
Proof. reflexivity. Qed.

Example py_int_examples :
  py_int "06" = Ok 6 /\ py_int " -1_000 " = Ok (-1000) /\ py_int "1__0" = Raise invalid_literal
  /\ py_int "" = Raise invalid_literal /\ py_int "2024" = Ok 2024.
Proof. repeat split; reflexivity. Qed.

Example str_of_Z_examples :
  str_of_Z 0 = "0" /\ str_of_Z 22 = "22" /\ str_of_Z 2024 = "2024" /\ str_of_Z (-7) = "-7"
  /\ str_of_Z 1000 = "1000".
Proof. repeat split; reflexivity. Qed.

Example iso_week_examples :
  iso_week (mk_datetime 2024 6 1 0 0 0) = 22 /\ iso_week (mk_datetime 2025 5 15 0 0 0) = 20
  /\ iso_week (mk_datetime 2024 12 30 0 0 0) = 1 /\ iso_week (mk_datetime 2021 1 1 0 0 0) = 53
  /\ iso_week (mk_datetime 2020 12 31 0 0 0) = 53 /\ iso_week (mk_datetime 2023 1 1 0 0 0) = 52.
Proof. repeat split; reflexivity. Qed.

Example strptime_examples :
  strptime "6/1/24 08:00:00" (date_tokens Dy ++ time_tokens) = Ok (mk_datetime 2024 6 1 8 0 0)
  /\ strptime "06/01/2024 23:59:59" (date_tokens DY ++ time_tokens) = Ok (mk_datetime 2024 6 1 23 59 59)
  /\ strptime "13/1/24 08:00:00" (date_tokens Dy ++ time_tokens) = Raise no_match
  /\ strptime "2/30/24 08:00:00" (date_tokens Dy ++ time_tokens)
     = Raise (ValueError "day is out of range for month")
  /\ strptime "6/1/24 08:00:62" (date_tokens Dy ++ time_tokens) = Raise unconverted
  /\ strptime "6/1/70" (date_tokens Dy) = Ok (mk_datetime 1970 6 1 0 0 0)
  /\ strptime "6/1/2024" (date_tokens Dy) = Raise unconverted.
Proof. repeat split; reflexivity. Qed.

Example epoch_seconds_example :
  epoch_seconds (mk_datetime 2024 6 1 0 0 0) = 1717200000.
Proof. reflexivity. Qed.


(** * Properties *)

(** ** The stable sort *)

Section StableSortFacts.
Context {A : Type} (key : A -> Z).

Lemma insert_by_perm (x : A) (l : list A) :
  Permutation (x :: l) (insert_by key x l).
Proof.
  induction l as [|y l IH]; simpl.
  - apply Permutation_refl.
  - destruct (key x <=? key y).
    + apply Permutation_refl.
    + eapply perm_trans; [apply perm_swap|].
      now apply perm_skip.
Qed.

Lemma sort_by_perm (l : list A) : Permutation l (sort_by key l).
Proof.
  induction l as [|x l IH]; simpl.
  - apply perm_nil.
  - eapply perm_trans; [apply perm_skip, IH|].
    apply insert_by_perm.
Qed.

Lemma insert_by_Forall (P : A -> Prop) (x : A) (l : list A) :
  P x -> Forall P l -> Forall P (insert_by key x l).
Proof.
  intros Hx Hl.
  eapply Permutation_Forall; [apply insert_by_perm|].
  now constructor.
Qed.

Lemma insert_by_sorted (x : A) (l : list A) :
  StronglySorted (key_le key) l -> StronglySorted (key_le key) (insert_by key x l).
Proof.
  induction 1 as [|y l Hs IH Hy]; simpl.
  - repeat constructor.
  - destruct (key x <=? key y) eqn:E.
    + apply Z.leb_le in E.
      constructor; [now constructor|].
      constructor; [exact E|].
      eapply Forall_impl; [|exact Hy].
      intros a Ha. unfold key_le in *. lia.
    + apply Z.leb_gt in E.
      constructor; [exact IH|].
      apply insert_by_Forall; [|exact Hy].
      unfold key_le. lia.
Qed.

Lemma sort_by_sorted (l : list A) : StronglySorted (key_le key) (sort_by key l).
Proof.
  induction l as [|x l IH]; simpl.
  - constructor.
  - now apply insert_by_sorted.
Qed.

Lemma with_key_insert_by (t : Z) (x : A) (l : list A) :
  with_key key t (insert_by key x l) = with_key key t (x :: l).
Proof.
  unfold with_key.
  induction l as [|y l IH]; simpl; [reflexivity|].
  destruct (key x <=? key y) eqn:E; simpl; [reflexivity|].
  simpl in IH. rewrite IH.
  apply Z.leb_gt in E.
  destruct (key x =? t) eqn:Ex, (key y =? t) eqn:Ey; try reflexivity.
  apply Z.eqb_eq in Ex, Ey. lia.
Qed.

(** Stability: the elements of one key come out in the order they went in. *)
Lemma sort_by_stable (t : Z) (l : list A) :
  with_key key t (sort_by key l) = with_key key t l.
Proof.
  induction l as [|x l IH]; simpl; [reflexivity|].
  rewrite with_key_insert_by. unfold with_key in *. simpl.
  now rewrite IH.
Qed.

Lemma with_key_In (t : Z) (l : list A) (a : A) :
  In a (with_key key t l) <-> In a l /\ key a = t.
Proof.
  unfold with_key. rewrite filter_In. now rewrite Z.eqb_eq.
Qed.

Lemma with_key_cons_same (x : A) (l : list A) :
  with_key key (key x) (x :: l) = x :: with_key key (key x) l.
Proof. unfold with_key. simpl. now rewrite Z.eqb_refl. Qed.

Lemma with_key_cons_other (t : Z) (x : A) (l : list A) :
  key x <> t -> with_key key t (x :: l) = with_key key t l.
Proof.
  intros H. unfold with_key. simpl.
  destruct (key x =? t) eqn:E; [apply Z.eqb_eq in E; contradiction|reflexivity].
Qed.

(** In two sorted lists with the same elements per key, the heads have the
    same key. *)
Lemma sorted_heads_same_key (x y : A) (l1 l2 : list A) :
  StronglySorted (key_le key) (y :: l2) ->
  (forall t, with_key key t (x :: l1) = with_key key t (y :: l2)) ->
  key y <= key x.
Proof.
  intros Hs H.
  destruct (Z.eq_dec (key y) (key x)) as [E|E]; [lia|].
  specialize (H (key x)).
  rewrite with_key_cons_same, (with_key_cons_other _ y) in H by exact E.
  assert (Hin : In x (with_key key (key x) l2)) by (rewrite <- H; now left).
  apply with_key_In in Hin as [Hin _].
  inversion Hs as [|? ? _ Hy]; subst.
  rewrite Forall_forall in Hy. exact (Hy x Hin).
Qed.

(** Two sorted lists that hold, for every key, the same elements in the same
    order are equal. *)
Lemma sorted_same_keys_eq (l1 : list A) :
  forall l2,
    StronglySorted (key_le key) l1 ->
    StronglySorted (key_le key) l2 ->
    (forall t, with_key key t l1 = with_key key t l2) ->
    l1 = l2.
Proof.
  induction l1 as [|x l1 IH]; intros [|y l2] H1 H2 H.
  - reflexivity.
  - specialize (H (key y)). rewrite with_key_cons_same in H. discriminate.
  - specialize (H (key x)). rewrite with_key_cons_same in H. discriminate.
  - assert (Hk : key x = key y).
    { pose proof (sorted_heads_same_key x y l1 l2 H2 H).
      pose proof (sorted_heads_same_key y x l2 l1 H1 (fun t => eq_sym (H t))).
      unfold key_le in *. lia. }
    pose proof (H (key x)) as Hx.
    rewrite with_key_cons_same, Hk, with_key_cons_same in Hx.
    injection Hx as -> Hx.
    f_equal. apply IH.
    + now inversion H1.
    + now inversion H2.
    + intros t. destruct (Z.eq_dec (key y) t) as [<-|E]; [exact Hx|].
      specialize (H t). now rewrite !with_key_cons_other in H by exact E.
Qed.

(** Any stable sort by [key] gives the result of [sort_by]: this is why the
    insertion sort stands for Python's sort. *)
Lemma stable_sort_unique (l sorted : list A) :
  StronglySorted (key_le key) sorted ->
  (forall t, with_key key t sorted = with_key key t l) ->
  sorted = sort_by key l.
Proof.
  intros Hs H. apply sorted_same_keys_eq; [exact Hs|apply sort_by_sorted|].
  intros t. now rewrite H, sort_by_stable.
Qed.

Lemma sort_by_length (l : list A) : List.length (sort_by key l) = List.length l.
Proof. symmetry. apply Permutation_length, sort_by_perm. Qed.

Lemma sort_by_Forall (P : A -> Prop) (l : list A) :
  Forall P l -> Forall P (sort_by key l).
Proof. apply Permutation_Forall, sort_by_perm. Qed.

End StableSortFacts.

(** ** Loops that can raise *)

Lemma map_result_Forall {A B : Type} (f : A -> result B) (P : B -> Prop) :
  (forall x y, f x = Ok y -> P y) ->
  forall l ys, map_result f l = Ok ys -> Forall P ys.
Proof.
  intros Hf. induction l as [|x l IH]; simpl; intros ys H.
  - injection H as <-. constructor.
  - destruct (f x) as [y|e] eqn:Ex; simpl in H; [|discriminate].
    destruct (map_result f l) as [ys'|e] eqn:El; simpl in H; [|discriminate].
    injection H as <-. constructor; eauto.
Qed.

(** Inversion of a [bind] that succeeded. *)
Lemma bind_ok {A B : Type} (r : result A) (k : A -> result B) (b : B) :
  bind r k = Ok b -> exists a, r = Ok a /\ k a = Ok b.
Proof. destruct r as [a|e]; simpl; [eauto|discriminate]. Qed.

Ltac bind_inv H :=
  let a := fresh "a" in
  let Ha := fresh "Ha" in
  apply bind_ok in H; destruct H as (a & Ha & H).

Import convert_json_to_fit (io, io_bind, io_ret, io_lift, io_print).

(** Inversion of an [io_bind] that succeeded. *)
Lemma io_bind_ok {A B : Type} (m : io A) (k : A -> io B) (out : list convert_json_to_fit.event)
      (b : B) :
  io_bind m k = (out, Ok b) ->
  exists out1 a out2, m = (out1, Ok a) /\ k a = (out2, Ok b) /\ out = (out1 ++ out2)%list.
Proof.
  destruct m as [out1 [a|e]]; simpl; [|discriminate].
  destruct (k a) as [out2 r] eqn:Ek. intros H. injection H as <- ->.
  now exists out1, a, out2.
Qed.

Lemma io_lift_ok {A : Type} (r : result A) (out : list convert_json_to_fit.event) (a : A) :
  io_lift r = (out, Ok a) -> r = Ok a /\ out = [].
Proof. unfold io_lift. intros H. injection H as <- ->. auto. Qed.

Ltac io_inv H :=
  let out1 := fresh "out" in
  let a := fresh "a" in
  let out2 := fresh "out" in
  let Ha := fresh "Ha" in
  let Ho := fresh "Ho" in
  apply io_bind_ok in H; destruct H as (out1 & a & out2 & Ha & H & Ho).

Lemma weight_entries_loop_Forall (P : fit_message -> Prop) :
  (forall entry out m, convert_json_to_fit.weight_entry entry = (out, Ok (Some m)) -> P m) ->
  forall entries out msgs,
    convert_json_to_fit.weight_entries_loop entries = (out, Ok msgs) -> Forall P msgs.
Proof.
  intros HP. induction entries as [|entry rest IH]; simpl; intros out msgs H.
  - injection H as <- <-. constructor.
  - io_inv H. io_inv H. injection H as _ <-.
    destruct a as [m|].
    + constructor; eauto.
    + eauto.
Qed.

(** ** Field order of the weight-scale message *)

Lemma weight_scale_message_well_ordered (ts : Z) (w : float) (fat : option pyval) :
  well_ordered (weight_scale_message ts w fat).
Proof. destruct fat; split; reflexivity. Qed.

Lemma weight_scale_message_encoded_order (ts : Z) (w : float) (fat : option pyval) :
  encoded_field_order (weight_scale_message ts w fat)
  = ([F_timestamp; F_weight]
     ++ match fat with Some _ => [F_percent_fat] | None => [] end
     ++ [F_percent_hydration; F_bone_mass; F_muscle_mass])%list.
Proof. now destruct fat. Qed.

(** The messages of both converters are built by [weight_scale_message]. *)
Lemma converter_weight_entry_message (entry : pyval) (m : fit_message) :
  converter.weight_entry entry = Ok m ->
  exists ts w fat,
    m = weight_scale_message ts w fat /\ weight_scale_stored ts w fat = Ok tt.
Proof.
  unfold converter.weight_entry. intros H.
  apply bind_ok in H as (log_id & _ & H).
  apply bind_ok in H as (weight & _ & H).
  apply bind_ok in H as (weight_kg & _ & H).
  apply bind_ok in H as (body_fat & _ & H).
  apply bind_ok in H as (ts & _ & H).
  apply bind_ok in H as ([] & Hstored & H).
  injection H as <-. eauto.
Qed.

Lemma script_weight_entry_message (entry : pyval) (out : list convert_json_to_fit.event)
      (m : fit_message) :
  convert_json_to_fit.weight_entry entry = (out, Ok (Some m)) ->
  exists ts w fat,
    m = weight_scale_message ts w fat /\ weight_scale_stored ts w fat = Ok tt.
Proof.
  unfold convert_json_to_fit.weight_entry. intros H.
  apply io_bind_ok in H as (o1 & date_str & o2 & _ & H & _).
  apply io_bind_ok in H as (o3 & time_str & o4 & _ & H & _).
  apply io_bind_ok in H as (o5 & t & o6 & _ & H & _).
  destruct (negb (convert_json_to_fit.timestamp_truthy t)); [discriminate|].
  apply io_bind_ok in H as (o7 & weight & o8 & _ & H & _).
  apply io_bind_ok in H as (o9 & weight_kg & o10 & _ & H & _).
  apply io_bind_ok in H as (o11 & body_fat & o12 & _ & H & _).
  apply io_bind_ok in H as (o13 & [] & o14 & Hstored & H & _).
  apply io_lift_ok in Hstored as [Hstored _].
  injection H as _ <-. eauto.
Qed.

(** C1, for every message the converters build and at the three records of
    [unordered_data]: the converters assign the fields in the order
    timestamp, weight, bone_mass, muscle_mass, percent_fat if there is a body
    fat, percent_hydration, as their comments ask; the fields are written in
    the order of the profile all the same, which is timestamp, weight,
    percent_fat if there is one, percent_hydration, bone_mass, muscle_mass:
    percent_fat comes directly after weight, and percent_hydration is never
    last. *)
Theorem encoded_fields_in_profile_order :
  (forall ts w fat,
      well_ordered (weight_scale_message ts w fat)
      /\ encoded_field_order (weight_scale_message ts w fat)
         = ([F_timestamp; F_weight]
            ++ match fat with Some _ => [F_percent_fat] | None => [] end
            ++ [F_percent_hydration; F_bone_mass; F_muscle_mass])%list
      /\ ~ encoded_as_specified (weight_scale_message ts w fat))
  /\ (exists msgs,
         converter.weight_entries_of unordered_data = Ok msgs
         /\ map encoded_field_order msgs
            = [[F_timestamp; F_weight; F_percent_hydration; F_bone_mass; F_muscle_mass];
               [F_timestamp; F_weight; F_percent_fat; F_percent_hydration; F_bone_mass;
                F_muscle_mass];
               [F_timestamp; F_weight; F_percent_fat; F_percent_hydration; F_bone_mass;
                F_muscle_mass]]
         /\ Forall (fun m => ~ encoded_as_specified m) msgs)
  /\ (exists msgs,
         convert_json_to_fit.weight_entries_of unordered_data = ([], Ok msgs)
         /\ map encoded_field_order msgs
            = [[F_timestamp; F_weight; F_percent_hydration; F_bone_mass; F_muscle_mass];
               [F_timestamp; F_weight; F_percent_fat; F_percent_hydration; F_bone_mass;
                F_muscle_mass];
               [F_timestamp; F_weight; F_percent_fat; F_percent_hydration; F_bone_mass;
                F_muscle_mass]]
         /\ Forall (fun m => ~ encoded_as_specified m) msgs).
Proof.
  assert (Hno : forall ts w fat, ~ encoded_as_specified (weight_scale_message ts w fat)).
  { intros ts w fat. unfold encoded_as_specified.
    rewrite weight_scale_message_encoded_order. now destruct fat. }
  split; [|split].
  - intros ts w fat. split; [apply weight_scale_message_well_ordered|].
    split; [apply weight_scale_message_encoded_order|apply Hno].
  - eexists. split; [vm_compute; reflexivity|]. split; [reflexivity|].
    repeat constructor; intros H; vm_compute in H; discriminate.
  - eexists. split; [vm_compute; reflexivity|]. split; [reflexivity|].
    repeat constructor; intros H; vm_compute in H; discriminate.
Qed.

(** ** Order of the weight records *)

Lemma msg_timestamp_weight_scale_message (ts : Z) (w : float) (fat : option pyval) :
  msg_timestamp (weight_scale_message ts w fat)
  = match fit_date_time ts with Ok encoded => encoded | Raise _ => 0 end.
Proof. now destruct fat. Qed.

Lemma assigned_timestamp_weight_scale_message (ts : Z) (w : float) (fat : option pyval) :
  assigned_timestamp (weight_scale_message ts w fat) = ts.
Proof. now destruct fat. Qed.

Lemma weight_scale_stored_timestamp (ts : Z) (w : float) (fat : option pyval) :
  weight_scale_stored ts w fat = Ok tt ->
  timestamp_stored (weight_scale_message ts w fat).
Proof.
  unfold weight_scale_stored, timestamp_stored. intros H.
  apply bind_ok in H as (encoded & Hts & _).
  rewrite assigned_timestamp_weight_scale_message, msg_timestamp_weight_scale_message.
  now rewrite Hts.
Qed.

Lemma converter_weight_entries_stored (json_data : pyval) (appended : list fit_message) :
  converter.weight_entries_appended json_data = Ok appended ->
  Forall timestamp_stored appended.
Proof.
  unfold converter.weight_entries_appended. intros H.
  apply bind_ok in H as (entries & _ & H).
  eapply map_result_Forall; [|exact H].
  intros entry m Hm.
  apply converter_weight_entry_message in Hm as (ts & w & fat & -> & Hstored).
  now apply weight_scale_stored_timestamp.
Qed.

Lemma script_weight_entries_stored (data : pyval) (out : list convert_json_to_fit.event)
      (appended : list fit_message) :
  convert_json_to_fit.weight_entries_appended data = (out, Ok appended) ->
  Forall timestamp_stored appended.
Proof.
  unfold convert_json_to_fit.weight_entries_appended. intros H.
  apply io_bind_ok in H as (o1 & entries & o2 & _ & H & _).
  eapply weight_entries_loop_Forall; [|exact H].
  intros entry o m Hm.
  apply script_weight_entry_message in Hm as (ts & w & fat & -> & Hstored).
  now apply weight_scale_stored_timestamp.
Qed.

Lemma sort_by_timestamp_spec (l : list fit_message) :
  Permutation l (sort_by msg_timestamp l)
  /\ sorted_by_timestamp (sort_by msg_timestamp l)
  /\ keeps_input_order l (sort_by msg_timestamp l).
Proof.
  split; [apply sort_by_perm|].
  split; [apply sort_by_sorted|].
  intros t. apply sort_by_stable.
Qed.

Section WithEncoder.
Variable fit_to_bytes : list fit_message -> result bytes.

(** What [process_json_data] did when it returned: the messages it gave the
    encoder. *)
Lemma process_json_data_ok self json_data filename self' fit_bytes n :
  converter.process_json_data fit_to_bytes self json_data filename
  = Ok (self', (fit_bytes, n)) ->
  exists file_id_msg appended,
    converter.validate_google_takeout_format json_data = Ok true
    /\ converter.file_id_of json_data = Ok file_id_msg
    /\ converter.weight_entries_appended json_data = Ok appended
    /\ fit_to_bytes (file_id_msg :: sort_by msg_timestamp appended) = Ok fit_bytes
    /\ n = Z.of_nat (List.length appended)
    /\ self' = converter.mk_converter (converter.conversion_count self + 1).
Proof.
  unfold converter.process_json_data. intros H.
  bind_inv H. destruct a; simpl in H; [|discriminate].
  bind_inv H. bind_inv H. bind_inv H.
  unfold converter.weight_entries_of in Ha2. bind_inv Ha2. injection Ha2 as <-.
  bind_inv H. injection H as <- <- <-.
  exists a0, a2. rewrite sort_by_length. auto 10.
Qed.

(** What [create_fit_file_from_json] did when it wrote a file. *)
Lemma create_fit_file_ok json_file data output_dir out path fit_bytes :
  convert_json_to_fit.create_fit_file_from_json fit_to_bytes json_file data output_dir
  = (out, Ok (Some (path, fit_bytes))) ->
  exists w file_id_msg appended out1 out2,
    convert_json_to_fit.get_week_number_from_filename json_file = Ok (Some w)
    /\ convert_json_to_fit.file_id_of data = (out1, Ok file_id_msg)
    /\ convert_json_to_fit.weight_entries_appended data = (out2, Ok appended)
    /\ fit_to_bytes (file_id_msg :: sort_by msg_timestamp appended) = Ok fit_bytes
    /\ path = output_dir ++ "/" ++ weight_file_name w.
Proof.
  unfold convert_json_to_fit.create_fit_file_from_json. intros H.
  io_inv H. clear Ha.
  destruct (negb (py_truthy data)).
  { io_inv H. discriminate. }
  io_inv H. apply io_lift_ok in Ha as [Hw _].
  destruct a0 as [w|].
  2:{ io_inv H. discriminate. }
  io_inv H. io_inv H.
  unfold convert_json_to_fit.weight_entries_of in Ha0.
  io_inv Ha0. injection Ha0 as _ <-.
  destruct (fit_to_bytes _) as [b|e] eqn:Eb.
  2:{ io_inv H. discriminate. }
  io_inv H. injection H as _ <- <-.
  exists w, a0, a2. eauto 10.
Qed.

(** C2, amended. In the file either converter produces, the weight records
    are in ascending order of the timestamp the file holds for them, which is
    the timestamp of the record to the whole second, and records that the
    file holds with the same timestamp are in their input order: the list
    given to the encoder after the file-id message is a permutation of the
    converted input, sorted by the stored seconds and stable. *)
Theorem weight_records_sorted_stable :
  (forall self json_data filename self' fit_bytes n,
      converter.process_json_data fit_to_bytes self json_data filename
      = Ok (self', (fit_bytes, n)) ->
      exists file_id_msg appended sorted,
        converter.weight_entries_appended json_data = Ok appended
        /\ fit_to_bytes (file_id_msg :: sorted) = Ok fit_bytes
        /\ Permutation appended sorted
        /\ Forall timestamp_stored sorted
        /\ sorted_by_timestamp sorted
        /\ keeps_input_order appended sorted)
  /\ (forall json_file data output_dir out path fit_bytes,
         convert_json_to_fit.create_fit_file_from_json fit_to_bytes json_file data output_dir
         = (out, Ok (Some (path, fit_bytes))) ->
         exists file_id_msg out' appended sorted,
           convert_json_to_fit.weight_entries_appended data = (out', Ok appended)
           /\ fit_to_bytes (file_id_msg :: sorted) = Ok fit_bytes
           /\ Permutation appended sorted
           /\ Forall timestamp_stored sorted
           /\ sorted_by_timestamp sorted
           /\ keeps_input_order appended sorted).
Proof.
  split.
  - intros self json_data filename self' fit_bytes n H.
    apply process_json_data_ok in H
      as (file_id_msg & appended & _ & _ & Happ & Hbytes & _).
    exists file_id_msg, appended, (sort_by msg_timestamp appended).
    split; [exact Happ|]. split; [exact Hbytes|].
    split; [apply sort_by_timestamp_spec|].
    split; [|apply sort_by_timestamp_spec].
    apply sort_by_Forall. now apply converter_weight_entries_stored in Happ.
  - intros json_file data output_dir out path fit_bytes H.
    apply create_fit_file_ok in H
      as (w & file_id_msg & appended & out1 & out2 & _ & _ & Happ & Hbytes & _).
    exists file_id_msg, out2, appended, (sort_by msg_timestamp appended).
    split; [exact Happ|]. split; [exact Hbytes|].
    split; [apply sort_by_timestamp_spec|].
    split; [|apply sort_by_timestamp_spec].
    apply sort_by_Forall. now apply script_weight_entries_stored in Happ.
Qed.

End WithEncoder.

(** C2 as the specification words it fails on two records whose log ids
    lie in the same second, the larger one first: both are stored with the
    same timestamp, the sort leaves them in their input order, and the record
    with the smaller log id comes second in the file. *)
Lemma same_second_records_not_sorted :
  converter.validate_google_takeout_format same_second_data = Ok true
  /\ converter.convert_fitbit_to_garmin
       sample_encoder [("weight-2024-06-01.json", same_second_data)]
     = Ok [("Weight 22-2024 Fitbit.fit", [Byte.xff; Byte.x51; Byte.x52])]
  /\ exists msgs,
       converter.weight_entries_of same_second_data = Ok msgs
       /\ map assigned_timestamp msgs = [1717228800400; 1717228800300]
       /\ map msg_timestamp msgs = [1086163200; 1086163200]
       /\ ~ sorted_by_assigned_timestamp msgs.
Proof.
  split; [reflexivity|]. split; [vm_compute; reflexivity|].
  eexists. split; [vm_compute; reflexivity|].
  split; [reflexivity|]. split; [vm_compute; reflexivity|].
  intros H. inversion H as [|m l _ Hall]; subst.
  inversion Hall as [|m' l' Hle _]; subst.
  vm_compute in Hle. now apply Hle.
Qed.

(** ** The validator and the format error *)

Lemma all_in_true (fields : list string) (v : pyval) :
  converter.all_in fields v = Ok true -> Forall (fun field => py_in field v = Ok true) fields.
Proof.
  induction fields as [|field fields IH]; simpl; intros H; [constructor|].
  bind_inv H. destruct a; [|discriminate].
  constructor; auto.
Qed.

(** The validator accepts only a non-empty list whose first element contains
    the four keys. *)
Lemma validate_true_shape (data : pyval) :
  converter.validate_google_takeout_format data = Ok true ->
  exists first_entry rest,
    data = PList (first_entry :: rest)
    /\ Forall (fun field => py_in field first_entry = Ok true) converter.required_fields.
Proof.
  destruct data as [| | | | |[|first_entry rest]|]; simpl; try discriminate.
  intros H. exists first_entry, rest. split; [reflexivity|].
  now apply all_in_true.
Qed.

(** When the validator answers [False], the conversion raises the format
    error, and nothing is encoded. *)
Lemma validate_false_raises (fit_to_bytes : list fit_message -> result bytes)
      (self : converter.FitbitConverter) (data : pyval) (filename : string) :
  converter.validate_google_takeout_format data = Ok false ->
  converter.process_json_data fit_to_bytes self data filename
  = Raise converter.invalid_format.
Proof. unfold converter.process_json_data. now intros ->. Qed.

Lemma malformed_scenario (fit_to_bytes : list fit_message -> result bytes)
      (self : converter.FitbitConverter) (filename : string) :
  converter.process_json_data fit_to_bytes self (PList [PDict [("foo", PInt 1)]]) filename
  = Raise converter.invalid_format.
Proof. reflexivity. Qed.

(** C3, at the input [[1]]: the list is not empty and its first element has
    none of the keys, and the validator does not answer: [in] raises
    [TypeError] on the number, and the conversion raises that [TypeError], not
    the format error. *)
Theorem validator_raises_on_scalar_entry
        (fit_to_bytes : list fit_message -> result bytes)
        (self : converter.FitbitConverter) (filename : string) :
  converter.validate_google_takeout_format (PList [PInt 1]) = Raise TypeError
  /\ converter.process_json_data fit_to_bytes self (PList [PInt 1]) filename = Raise TypeError
  /\ converter.convert_fitbit_to_garmin fit_to_bytes [(filename, PList [PInt 1])]
     = Raise TypeError
  /\ Raise TypeError <> @Raise (converter.FitbitConverter * (bytes * Z)) converter.invalid_format.
Proof. repeat split; try reflexivity. discriminate. Qed.

(** ** The name of the output file *)

Lemma output_name_from_file_name (input_filename w : string) :
  converter.extract_week_year_from_filename input_filename = Ok (Some w) ->
  converter.get_output_filename input_filename = Ok (weight_file_name w).
Proof. unfold converter.get_output_filename. now intros ->. Qed.

Lemma output_name_fallback (input_filename : string) :
  converter.extract_week_year_from_filename input_filename = Ok None ->
  converter.get_output_filename input_filename = Ok "Weight Converted Fitbit.fit".
Proof. unfold converter.get_output_filename. now intros ->. Qed.

Example scenario_output_name :
  converter.get_output_filename "weight-2024-06-01.json" = Ok "Weight 22-2024 Fitbit.fit".
Proof. reflexivity. Qed.

(** The end-to-end scenario of the specification: one record of 81.6 kg
    without percent_fat, timestamp 1717200000000, in a file named after ISO
    week 22 of 2024. *)
Example end_to_end_scenario :
  converter.weight_entries_of scenario_data
  = Ok [weight_scale_message 1717200000000 81.6 None]
  /\ converter.convert_fitbit_to_garmin sample_encoder
       [("weight-2024-06-01.json", scenario_data)]
     = Ok [("Weight 22-2024 Fitbit.fit", [Byte.xff; Byte.x51])].
Proof. split; vm_compute; reflexivity. Qed.

(** C7, at the file name ["export.json"] with a first record dated 6/1/24:
    [process_json_data] works the week out of the first record (22-2024), but
    the name comes from [get_output_filename], which reads the file name only
    and falls back to the fixed name. *)
Theorem output_name_ignores_first_record
        (fit_to_bytes : list fit_message -> result bytes) :
  converter.extract_week_year_from_filename "export.json" = Ok None
  /\ converter.process_week_year scenario_data "export.json" = Ok "22-2024"
  /\ converter.get_output_filename "export.json" = Ok "Weight Converted Fitbit.fit"
  /\ converter.convert_fitbit_to_garmin fit_to_bytes [("export.json", scenario_data)]
     = (fit_bytes <- fit_to_bytes
                       [set_field F_time_created (PInt 1717200000000) file_id_message;
                        weight_scale_message 1717200000000 81.6%float None] ;;
        Ok [("Weight Converted Fitbit.fit", fit_bytes)]).
Proof.
  repeat split; try reflexivity.
  unfold converter.convert_fitbit_to_garmin, converter.convert_files,
    converter.process_json_data.
  change (converter.validate_google_takeout_format scenario_data) with (@Ok bool true).
  change (converter.process_week_year scenario_data "export.json") with (@Ok string "22-2024").
  cbn [bind negb].
  change (converter.file_id_of scenario_data)
    with (Ok (set_field F_time_created (PInt 1717200000000) file_id_message)).
  cbn [bind].
  replace (converter.weight_entries_of scenario_data)
    with (Ok [weight_scale_message 1717200000000 81.6%float None])
    by (vm_compute; reflexivity).
  cbn [bind]. now destruct (fit_to_bytes _).
Qed.

(** ** Records the script leaves out *)

Lemma io_bind_lift_ok {A B : Type} (a : A) (k : A -> io B) :
  io_bind (io_lift (Ok a)) k = k a.
Proof. unfold io_bind, io_lift. now destruct (k a). Qed.

Lemma io_bind_ret_l {A B : Type} (a : A) (k : A -> io B) :
  io_bind (io_ret a) k = k a.
Proof. apply io_bind_lift_ok. Qed.

Lemma io_bind_ret_r {A : Type} (m : io A) : io_bind m (fun a => io_ret a) = m.
Proof.
  destruct m as [out [a|e]]; simpl; [|reflexivity].
  now rewrite app_nil_r.
Qed.

(** The loop body on an entry whose date and time are there: what the
    timestamp conversion printed, and [continue] when it gave [None] or 0. *)
Lemma weight_entry_skips (entry date_str time_str : pyval)
      (out : list convert_json_to_fit.event) (t : option Z) :
  py_getitem entry "date" = Ok date_str ->
  py_getitem entry "time" = Ok time_str ->
  convert_json_to_fit.convert_date_to_unix_timestamp date_str time_str = (out, Ok t) ->
  convert_json_to_fit.timestamp_truthy t = false ->
  convert_json_to_fit.weight_entry entry = (out, Ok None).
Proof.
  intros Hd Ht Hc Hz. unfold convert_json_to_fit.weight_entry.
  rewrite Hd, Ht, !io_bind_lift_ok, Hc. simpl. rewrite Hz. simpl.
  now rewrite app_nil_r.
Qed.

(** A skipped entry that printed nothing leaves no trace in the loop. *)
Lemma weight_entries_loop_skip (entry : pyval) (pre post : list pyval) :
  convert_json_to_fit.weight_entry entry = ([], Ok None) ->
  convert_json_to_fit.weight_entries_loop (pre ++ entry :: post)
  = convert_json_to_fit.weight_entries_loop (pre ++ post).
Proof.
  intros He. induction pre as [|x pre IH]; simpl.
  - rewrite He. change (@nil convert_json_to_fit.event, @Ok (option fit_message) None)
      with (io_ret (@None fit_message)).
    rewrite io_bind_ret_l. apply io_bind_ret_r.
  - now rewrite IH.
Qed.

(** A date with its three parts that [strptime] refuses: the record is
    reported and skipped, and the loop goes on with the rest. *)
Lemma mismatch_is_skipped (entry : pyval) (d t : string) (rest : list pyval) :
  py_getitem entry "date" = Ok (PStr d) ->
  py_getitem entry "time" = Ok (PStr t) ->
  convert_json_to_fit.convert_date_to_unix_timestamp (PStr d) (PStr t)
  = ([convert_json_to_fit.ErrorParsingDate d (PStr t)], Ok None) ->
  convert_json_to_fit.weight_entries_loop (entry :: rest)
  = let (out, r) := convert_json_to_fit.weight_entries_loop rest in
    (convert_json_to_fit.ErrorParsingDate d (PStr t) :: out, r).
Proof.
  intros Hd Ht Hc. simpl.
  rewrite (weight_entry_skips entry _ _ _ None Hd Ht Hc eq_refl). simpl.
  destruct (convert_json_to_fit.weight_entries_loop rest) as [out [ms|e]]; simpl.
  - now rewrite app_nil_r.
  - reflexivity.
Qed.

(** C4, at a batch whose second record is dated ["2024-06-02"]: the date has
    no third part between slashes, [split('/')[2]] raises [IndexError], which
    [except ValueError] does not catch: nothing is reported, the record is not
    skipped, and the conversion of the batch ends with the exception. *)
Theorem date_without_slashes_is_fatal
        (fit_to_bytes : list fit_message -> result bytes) :
  convert_json_to_fit.convert_date_to_unix_timestamp (PStr "2024-06-02") (PStr "08:00:00")
  = ([], Raise IndexError)
  /\ convert_json_to_fit.weight_entries_of dashed_date_data = ([], Raise IndexError)
  /\ convert_json_to_fit.create_fit_file_from_json
       fit_to_bytes "weight-2024-06-01.json" dashed_date_data "."
     = ([convert_json_to_fit.Processing "weight-2024-06-01.json"], Raise IndexError).
Proof. repeat split; vm_compute; reflexivity. Qed.

(** C10. In the script, a record whose date and time parse to the timestamp 0
    (1970-01-01 00:00:00) is dropped without a word: the loop body takes the
    [continue] of a failed parse, prints nothing, and the weight entries are
    those of the batch without the record. *)
Theorem zero_timestamp_record_dropped (entry date_str time_str : pyval)
        (pre post : list pyval) :
  py_getitem entry "date" = Ok date_str ->
  py_getitem entry "time" = Ok time_str ->
  convert_json_to_fit.convert_date_to_unix_timestamp date_str time_str = ([], Ok (Some 0)) ->
  convert_json_to_fit.weight_entry entry = ([], Ok None)
  /\ convert_json_to_fit.weight_entries_of (PList (pre ++ entry :: post))
     = convert_json_to_fit.weight_entries_of (PList (pre ++ post)).
Proof.
  intros Hd Ht Hc.
  assert (He : convert_json_to_fit.weight_entry entry = ([], Ok None))
    by exact (weight_entry_skips entry _ _ _ _ Hd Ht Hc eq_refl).
  split; [exact He|].
  unfold convert_json_to_fit.weight_entries_of,
    convert_json_to_fit.weight_entries_appended. simpl py_iter.
  rewrite !io_bind_lift_ok.
  now rewrite weight_entries_loop_skip.
Qed.

(** ** Rounding to one decimal place *)

Lemma round_half_even_near (num den : Z) :
  0 < den -> 2 * Z.abs (num - round_half_even num den * den) <= den.
Proof.
  intros Hden. unfold round_half_even.
  pose proof (Z.div_mod num den ltac:(lia)) as Hdm.
  pose proof (Z.mod_pos_bound num den Hden) as Hr.
  set (q := num / den) in *. set (r := num mod den) in *.
  destruct (2 * r <? den) eqn:E1; [apply Z.ltb_lt in E1; lia|].
  apply Z.ltb_ge in E1.
  destruct (den <? 2 * r) eqn:E2; [apply Z.ltb_lt in E2; lia|].
  apply Z.ltb_ge in E2.
  destruct (Z.even q); lia.
Qed.

Lemma round_half_even_nonneg (num den : Z) :
  0 <= num -> 0 < den -> 0 <= round_half_even num den.
Proof.
  intros Hn Hd. unfold round_half_even.
  pose proof (Z.div_pos num den Hn Hd).
  destruct (2 * (num mod den) <? den); [lia|].
  destruct (den <? 2 * (num mod den)); [lia|].
  destruct (Z.even (num / den)); lia.
Qed.

Lemma py_round1_rounded (x : float) : rounded_to_one_decimal x (py_round1 x).
Proof.
  unfold rounded_to_one_decimal, py_round1.
  destruct (Prim2SF x) as [s|s| |s m e]; try reflexivity.
  destruct (0 <=? e) eqn:E; [reflexivity|].
  apply Z.leb_gt in E.
  assert (Hden : 0 < 2 ^ (- e)) by (apply Z.pow_pos_nonneg; lia).
  exists (tenths_of m e). unfold tenths_of. repeat split.
  - apply round_half_even_nonneg; lia.
  - now apply round_half_even_near.
Qed.

Lemma py_float_of_int_raises (z : Z) (e : exn) :
  py_float_of_int z = Raise e -> e = OverflowError.
Proof.
  unfold py_float_of_int.
  destruct (binary_normalize prec emax z 0 false); try discriminate.
  now intros [= <-].
Qed.

(** C8 as the specification words it fails on an integer too large for a
    float, and on a value that is not a number: the division raises. *)
Lemma pounds_to_kg_can_raise :
  converter.convert_pounds_to_kg (PInt (2 ^ 1024)) = Raise OverflowError
  /\ convert_json_to_fit.convert_pounds_to_kg (PInt (2 ^ 1024)) = Raise OverflowError
  /\ converter.convert_pounds_to_kg (PStr "180") = Raise TypeError
  /\ convert_json_to_fit.convert_pounds_to_kg (PStr "180") = Raise TypeError.
Proof. repeat split; vm_compute; reflexivity. Qed.

(** C8, amended. Both converters' pounds-to-kilograms function gives the same
    result, which depends on the argument only.  On a float [p] it returns
    [p / 2.2046] rounded to one decimal place; an [int] or a [bool] is turned
    into a float first, and an [int] too large for a float raises
    [OverflowError]; a value that is not a number raises [TypeError].  180
    pounds are 81.6 kilograms and 220.46 pounds are 100.0. *)
Theorem pounds_to_kg_rounds :
  (forall p : float,
      exists r,
        converter.convert_pounds_to_kg (PFloat p) = Ok r
        /\ convert_json_to_fit.convert_pounds_to_kg (PFloat p) = Ok r
        /\ rounded_to_one_decimal (p / 2.2046) r)
  /\ (forall z : Z,
         (exists p r,
             py_float_of_int z = Ok p
             /\ converter.convert_pounds_to_kg (PInt z) = Ok r
             /\ convert_json_to_fit.convert_pounds_to_kg (PInt z) = Ok r
             /\ rounded_to_one_decimal (p / 2.2046) r)
         \/ (py_float_of_int z = Raise OverflowError
             /\ converter.convert_pounds_to_kg (PInt z) = Raise OverflowError
             /\ convert_json_to_fit.convert_pounds_to_kg (PInt z) = Raise OverflowError))
  /\ (forall b : bool,
         exists r,
           converter.convert_pounds_to_kg (PBool b) = Ok r
           /\ convert_json_to_fit.convert_pounds_to_kg (PBool b) = Ok r
           /\ rounded_to_one_decimal ((if b then 1 else 0) / 2.2046) r)
  /\ (forall v,
         is_number v = false ->
         converter.convert_pounds_to_kg v = Raise TypeError
         /\ convert_json_to_fit.convert_pounds_to_kg v = Raise TypeError)
  /\ converter.convert_pounds_to_kg (PFloat 180) = Ok 81.6%float
  /\ converter.convert_pounds_to_kg (PFloat 220.46) = Ok 100%float.
Proof.
  split; [|split; [|split; [|split; [|split; vm_compute; reflexivity]]]].
  - intros p. exists (py_round1 (p / 2.2046)).
    repeat split. apply py_round1_rounded.
  - intros z.
    unfold converter.convert_pounds_to_kg, convert_json_to_fit.convert_pounds_to_kg,
      py_truediv.
    destruct (py_float_of_int z) as [p|e] eqn:E.
    + left. exists p, (py_round1 (p / 2.2046)).
      repeat split. apply py_round1_rounded.
    + right. apply py_float_of_int_raises in E as ->. now repeat split.
  - intros b. exists (py_round1 ((if b then 1 else 0) / 2.2046)).
    repeat split. apply py_round1_rounded.
  - intros v Hv. now destruct v.
Qed.

Example scenario_weight :
  converter.convert_pounds_to_kg (PFloat 180) = Ok 81.6%float
  /\ converter.convert_pounds_to_kg (PInt 180) = Ok 81.6%float
  /\ (81.6 =? 0x1.4666666666666p+6)%float = true.
Proof. repeat split; vm_compute; reflexivity. Qed.

(** ** The converter object *)

Section Repeat.
Variable fit_to_bytes : list fit_message -> result bytes.

(** The counter of the converter object has no part in what is returned. *)
Lemma process_json_data_counter_free (self1 self2 : converter.FitbitConverter)
      (json_data : pyval) (filename : string) :
  returned (converter.process_json_data fit_to_bytes self1 json_data filename)
  = returned (converter.process_json_data fit_to_bytes self2 json_data filename).
Proof.
  unfold converter.process_json_data.
  destruct (converter.validate_google_takeout_format json_data) as [[|]|e];
    simpl; try reflexivity.
  destruct (converter.process_week_year json_data filename); simpl; try reflexivity.
  destruct (converter.file_id_of json_data); simpl; try reflexivity.
  destruct (converter.weight_entries_of json_data); simpl; try reflexivity.
  destruct (fit_to_bytes _); reflexivity.
Qed.

End Repeat.

(** ** The creation time of the file *)

Lemma as_timestamp_ok (v : pyval) (z : Z) : as_timestamp v = Ok z -> v = PInt z.
Proof. destruct v; simpl; try discriminate. now intros [= ->]. Qed.

(** C6 as the specification words it fails on a batch that does not start
    with its earliest record: [time_created] is 1717315200000, the log id of
    the first record, and the earliest record, which comes first in the
    file, has log id 1717228800000. *)
Lemma time_created_not_from_earliest :
  converter.validate_google_takeout_format unordered_data = Ok true
  /\ (exists file_id_msg first rest,
         converter.file_id_of unordered_data = Ok file_id_msg
         /\ converter.weight_entries_of unordered_data = Ok (first :: rest)
         /\ get_field F_time_created file_id_msg = Some (PInt 1717315200000)
         /\ get_field F_timestamp first = Some (PInt 1717228800000))
  /\ ~ time_created_from_earliest unordered_data.
Proof.
  split; [reflexivity|]. split.
  - do 3 eexists. split; [vm_compute; reflexivity|].
    split; [vm_compute; reflexivity|]. split; reflexivity.
  - intros H.
    assert (Hid : converter.file_id_of unordered_data
                  = Ok (set_field F_time_created (PInt 1717315200000) file_id_message))
      by (vm_compute; reflexivity).
    assert (Hw : converter.weight_entries_of unordered_data
                 = Ok [weight_scale_message 1717228800000 (py_round1 (181 / 2.2046)) None;
                       weight_scale_message 1717315200000 (py_round1 (180 / 2.2046))
                         (Some (PFloat (py_round1 0.05)));
                       weight_scale_message 1717315200000 (py_round1 (182 / 2.2046))
                         (Some (PFloat (py_round1 21.5)))])
      by (vm_compute; reflexivity).
    specialize (H _ _ _ Hid Hw). discriminate H.
Qed.

Section CreationTime.
Variable fit_to_bytes : list fit_message -> result bytes.

(** C6, amended. When a conversion succeeds, [time_created] of the file-id
    message is taken from the first record of the batch in input order,
    whatever its place among the timestamps: in the web-service converter it
    is the [logId] of that record; in the script it is the timestamp parsed
    from the date and time of that record, the field being left unset when
    that is [None] or 0. *)
Theorem time_created_from_first_record :
  (forall self json_data filename self' fit_bytes n,
      converter.process_json_data fit_to_bytes self json_data filename
      = Ok (self', (fit_bytes, n)) ->
      exists first_entry rest log_id file_id_msg weight_msgs,
        json_data = PList (first_entry :: rest)
        /\ py_getitem first_entry "logId" = Ok log_id
        /\ get_field F_time_created file_id_msg = Some log_id
        /\ fit_to_bytes (file_id_msg :: weight_msgs) = Ok fit_bytes)
  /\ (forall json_file data output_dir out path fit_bytes,
         convert_json_to_fit.create_fit_file_from_json fit_to_bytes json_file data output_dir
         = (out, Ok (Some (path, fit_bytes))) ->
         exists first_entry date_str time_str out1 t file_id_msg weight_msgs,
           py_index0 data = Ok first_entry
           /\ py_getitem first_entry "date" = Ok date_str
           /\ py_getitem first_entry "time" = Ok time_str
           /\ convert_json_to_fit.convert_date_to_unix_timestamp date_str time_str
              = (out1, Ok t)
           /\ get_field F_time_created file_id_msg
              = (if convert_json_to_fit.timestamp_truthy t then option_map PInt t else None)
           /\ fit_to_bytes (file_id_msg :: weight_msgs) = Ok fit_bytes).
Proof.
  split.
  - intros self json_data filename self' fit_bytes n H.
    apply process_json_data_ok in H
      as (file_id_msg & appended & Hvalid & Hid & Happ & Hbytes & _).
    apply validate_true_shape in Hvalid as (first_entry & rest & -> & _).
    unfold converter.file_id_of in Hid. simpl in Hid.
    apply bind_ok in Hid as (v & Hv & Hid).
    apply bind_ok in Hid as (log_id & Hlog & Hid).
    apply bind_ok in Hid as (encoded & _ & Hid).
    injection Hid as <-.
    apply as_timestamp_ok in Hlog as ->.
    exists first_entry, rest, (PInt log_id),
      (set_field F_time_created (PInt log_id) file_id_message),
      (sort_by msg_timestamp appended).
    repeat split; assumption.
  - intros json_file data output_dir out path fit_bytes H.
    apply create_fit_file_ok in H
      as (w & file_id_msg & appended & out1 & out2 & _ & Hid & _ & Hbytes & _).
    unfold convert_json_to_fit.file_id_of in Hid.
    apply io_bind_ok in Hid as (o1 & first_entry & o2 & Hfirst & Hid & _).
    apply io_lift_ok in Hfirst as [Hfirst _].
    apply io_bind_ok in Hid as (o3 & date_str & o4 & Hdate & Hid & _).
    apply io_lift_ok in Hdate as [Hdate _].
    apply io_bind_ok in Hid as (o5 & time_str & o6 & Htime & Hid & _).
    apply io_lift_ok in Htime as [Htime _].
    apply io_bind_ok in Hid as (o7 & t & o8 & Hconv & Hid & _).
    exists first_entry, date_str, time_str, o7, t, file_id_msg,
      (sort_by msg_timestamp appended).
    repeat split; try assumption.
    destruct t as [z|]; unfold convert_json_to_fit.timestamp_truthy in *.
    + destruct (negb (z =? 0)).
      * apply io_bind_ok in Hid as (o9 & encoded & o10 & _ & Hid & _).
        now injection Hid as _ <-.
      * now injection Hid as _ <-.
    + now injection Hid as _ <-.
Qed.

End CreationTime.

(** ** Body fat *)

Lemma percent_fat_absent_message (ts : Z) (w : float) :
  percent_fat_absent (weight_scale_message ts w None).
Proof.
  split; [reflexivity|].
  rewrite weight_scale_message_encoded_order. simpl. intuition discriminate.
Qed.

Lemma percent_fat_is_message (ts : Z) (w : float) (v : pyval) :
  percent_fat_is v (weight_scale_message ts w (Some v)).
Proof.
  split; [reflexivity|].
  rewrite weight_scale_message_encoded_order. simpl. auto.
Qed.

(** The body-fat lines on a raw value that is a number. *)
Lemma body_fat_of_number (entry raw : pyval) :
  py_get entry "fat" (PFloat 0) = Ok raw ->
  is_number raw = true ->
  exists body_fat,
    body_fat_of entry = Ok body_fat
    /\ forall ts w, body_fat_as_specified raw (weight_scale_message ts w body_fat).
Proof.
  intros Hraw Hnum. unfold body_fat_of. rewrite Hraw. cbn [bind].
  destruct raw as [|b|z|f| | |]; try discriminate; cbn [py_eq_zero body_fat_as_specified].
  - destruct b; cbn [negb py_round1_val bind]; eexists; (split; [reflexivity|]); intros ts w.
    + apply percent_fat_is_message.
    + apply percent_fat_absent_message.
  - destruct (z =? 0); cbn [py_round1_val bind]; eexists; (split; [reflexivity|]);
      intros ts w.
    + apply percent_fat_absent_message.
    + apply percent_fat_is_message.
  - destruct (f =? 0)%float; cbn [py_round1_val bind]; eexists; (split; [reflexivity|]);
      intros ts w.
    + apply percent_fat_absent_message.
    + split; [apply percent_fat_is_message|apply py_round1_rounded].
Qed.

(** The body-fat lines on a raw value that is not a number: [round] raises. *)
Lemma body_fat_of_not_number (entry raw : pyval) :
  py_get entry "fat" (PFloat 0) = Ok raw ->
  is_number raw = false ->
  body_fat_of entry = Raise TypeError.
Proof.
  intros Hraw Hnum. unfold body_fat_of. rewrite Hraw. cbn [bind].
  now destruct raw.
Qed.

(** C5 as the specification words it fails on a record whose body fat is
    [null]: the value is not 0.0, [round] raises [TypeError] on it, and
    neither converter produces a record, or a file. *)
Lemma null_body_fat_aborts :
  converter.validate_google_takeout_format null_fat_data = Ok true
  /\ converter.weight_entries_of null_fat_data = Raise TypeError
  /\ converter.convert_fitbit_to_garmin
       sample_encoder [("weight-2024-06-01.json", null_fat_data)]
     = Raise TypeError
  /\ convert_json_to_fit.create_fit_file_from_json
       sample_encoder "weight-2024-06-01.json" null_fat_data "."
     = ([convert_json_to_fit.Processing "weight-2024-06-01.json"], Raise TypeError).
Proof. repeat split; vm_compute; reflexivity. Qed.

(** C5, amended. For a record that either converter gets as far as building
    a message for, and whose raw body fat ([entry.get('fat', 0.0)]) is a
    number: when the setters accept the values of the record, the message is
    built; a raw body fat equal to 0.0 leaves it without percent_fat, and no
    percent_fat is written; any other float is rounded to one decimal place,
    assigned to percent_fat and written; an [int] that is not 0 is kept as it
    is.  A raw body fat that is not a number ([null], a string) makes [round]
    raise [TypeError].  The raw value 0.05 is not 0.0 and rounds to 0.1. *)
Theorem body_fat_normalisation :
  (forall entry log_id weight weight_kg raw,
      py_getitem entry "logId" = Ok (PInt log_id) ->
      py_getitem entry "weight" = Ok weight ->
      converter.convert_pounds_to_kg weight = Ok weight_kg ->
      py_get entry "fat" (PFloat 0) = Ok raw ->
      is_number raw = true ->
      (forall body_fat,
          body_fat_of entry = Ok body_fat ->
          weight_scale_stored log_id weight_kg body_fat = Ok tt) ->
      exists m,
        converter.weight_entry entry = Ok m /\ body_fat_as_specified raw m)
  /\ (forall entry date_str time_str out ts weight weight_kg raw,
         py_getitem entry "date" = Ok date_str ->
         py_getitem entry "time" = Ok time_str ->
         convert_json_to_fit.convert_date_to_unix_timestamp date_str time_str
         = (out, Ok (Some ts)) ->
         ts <> 0 ->
         py_getitem entry "weight" = Ok weight ->
         convert_json_to_fit.convert_pounds_to_kg weight = Ok weight_kg ->
         py_get entry "fat" (PFloat 0) = Ok raw ->
         is_number raw = true ->
         (forall body_fat,
             body_fat_of entry = Ok body_fat ->
             weight_scale_stored ts weight_kg body_fat = Ok tt) ->
         exists m,
           convert_json_to_fit.weight_entry entry = (out, Ok (Some m))
           /\ body_fat_as_specified raw m)
  /\ (forall entry log_id weight weight_kg raw,
         py_getitem entry "logId" = Ok log_id ->
         py_getitem entry "weight" = Ok weight ->
         converter.convert_pounds_to_kg weight = Ok weight_kg ->
         py_get entry "fat" (PFloat 0) = Ok raw ->
         is_number raw = false ->
         converter.weight_entry entry = Raise TypeError)
  /\ (forall entry date_str time_str out ts weight weight_kg raw,
         py_getitem entry "date" = Ok date_str ->
         py_getitem entry "time" = Ok time_str ->
         convert_json_to_fit.convert_date_to_unix_timestamp date_str time_str
         = (out, Ok (Some ts)) ->
         ts <> 0 ->
         py_getitem entry "weight" = Ok weight ->
         convert_json_to_fit.convert_pounds_to_kg weight = Ok weight_kg ->
         py_get entry "fat" (PFloat 0) = Ok raw ->
         is_number raw = false ->
         convert_json_to_fit.weight_entry entry = (out, Raise TypeError))
  /\ (0.05 =? 0)%float = false
  /\ py_round1 0.05 = 0.1%float.
Proof.
  assert (Htruthy : forall ts, ts <> 0 ->
             negb (convert_json_to_fit.timestamp_truthy (Some ts)) = false).
  { intros ts Hts. unfold convert_json_to_fit.timestamp_truthy.
    apply Z.eqb_neq in Hts. now rewrite Hts. }
  split; [|split; [|split; [|split; [|split; reflexivity]]]].
  - intros entry log_id weight weight_kg raw Hlog Hw Hkg Hraw Hnum Hfits.
    destruct (body_fat_of_number entry raw Hraw Hnum) as (body_fat & Hfat & Hspec).
    exists (weight_scale_message log_id weight_kg body_fat).
    split; [|apply Hspec].
    unfold converter.weight_entry.
    rewrite Hlog, Hw. cbn [bind]. rewrite Hkg. cbn [bind]. rewrite Hfat.
    cbn [bind as_timestamp]. now rewrite (Hfits _ Hfat).
  - intros entry date_str time_str out ts weight weight_kg raw
           Hd Ht Hc Hts Hw Hkg Hraw Hnum Hfits.
    destruct (body_fat_of_number entry raw Hraw Hnum) as (body_fat & Hfat & Hspec).
    exists (weight_scale_message ts weight_kg body_fat).
    split; [|apply Hspec].
    unfold convert_json_to_fit.weight_entry.
    rewrite Hd, Ht, !io_bind_lift_ok, Hc. cbn [io_bind].
    rewrite (Htruthy ts Hts), Hw, io_bind_lift_ok, Hkg, io_bind_lift_ok, Hfat,
      io_bind_lift_ok, (Hfits _ Hfat), io_bind_lift_ok.
    cbn. now rewrite app_nil_r.
  - intros entry log_id weight weight_kg raw Hlog Hw Hkg Hraw Hnum.
    unfold converter.weight_entry.
    rewrite Hlog, Hw. cbn [bind]. rewrite Hkg. cbn [bind].
    now rewrite (body_fat_of_not_number entry raw Hraw Hnum).
  - intros entry date_str time_str out ts weight weight_kg raw
           Hd Ht Hc Hts Hw Hkg Hraw Hnum.
    unfold convert_json_to_fit.weight_entry.
    rewrite Hd, Ht, !io_bind_lift_ok, Hc. cbn [io_bind].
    rewrite (Htruthy ts Hts), Hw, io_bind_lift_ok, Hkg, io_bind_lift_ok,
      (body_fat_of_not_number entry raw Hraw Hnum).
    cbn. now rewrite app_nil_r.
Qed.

(** ** The theorems at work on the sample inputs *)

(** C2 on [unordered_data]: the record of 6/1/24 comes first, and the two
    records of 6/2/24, which have the same log id, follow in their input
    order. *)
Lemma weight_records_sorted_stable_witness :
  exists file_id_msg appended sorted,
    converter.weight_entries_appended unordered_data = Ok appended
    /\ sample_encoder (file_id_msg :: sorted) = Ok [Byte.xff; Byte.x52; Byte.x51; Byte.x52]
    /\ Permutation appended sorted
    /\ Forall timestamp_stored sorted
    /\ sorted_by_timestamp sorted
    /\ keeps_input_order appended sorted.
Proof.
  apply (proj1 (weight_records_sorted_stable sample_encoder)
               (converter.mk_converter 0) unordered_data "weight-2024-06-01.json"
               (converter.mk_converter 1) _ 3).
  vm_compute. reflexivity.
Defined.

(** C5 on a record with a raw body fat of 0.05: percent_fat is 0.1. *)
Lemma body_fat_normalisation_witness :
  exists m,
    converter.weight_entry
      (takeout_entry 1717315200000 180 (Some 0.05%float) "6/2/24" "08:00:00") = Ok m
    /\ body_fat_as_specified (PFloat 0.05) m.
Proof.
  apply (proj1 body_fat_normalisation
               (takeout_entry 1717315200000 180 (Some 0.05%float) "6/2/24" "08:00:00")
               1717315200000 (PFloat 180) 81.6%float (PFloat 0.05)).
  - reflexivity.
  - reflexivity.
  - vm_compute. reflexivity.
  - reflexivity.
  - reflexivity.
  - intros body_fat H. vm_compute in H. injection H as <-. vm_compute. reflexivity.
Defined.

(** C6 on [unordered_data]: [time_created] is the log id of the first
    record. *)
Lemma time_created_from_first_record_witness :
  exists first_entry rest log_id file_id_msg weight_msgs,
    unordered_data = PList (first_entry :: rest)
    /\ py_getitem first_entry "logId" = Ok log_id
    /\ get_field F_time_created file_id_msg = Some log_id
    /\ sample_encoder (file_id_msg :: weight_msgs)
       = Ok [Byte.xff; Byte.x52; Byte.x51; Byte.x52].
Proof.
  apply (proj1 (time_created_from_first_record sample_encoder)
               (converter.mk_converter 0) unordered_data "weight-2024-06-01.json"
               (converter.mk_converter 1) _ 3).
  vm_compute. reflexivity.
Defined.

(** C8 on [None]: the division raises [TypeError]. *)
Lemma pounds_to_kg_rounds_witness :
  converter.convert_pounds_to_kg PNone = Raise TypeError
  /\ convert_json_to_fit.convert_pounds_to_kg PNone = Raise TypeError.
Proof.
  apply (proj1 (proj2 (proj2 (proj2 pounds_to_kg_rounds))) PNone).
  reflexivity.
Defined.

(** C10 on [epoch_data]: the record of 1/1/70 00:00:00 has timestamp 0 and the
    batch converts like the batch without it. *)
Lemma zero_timestamp_record_dropped_witness :
  convert_json_to_fit.convert_date_to_unix_timestamp (PStr "1/1/70") (PStr "00:00:00")
  = ([], Ok (Some 0))
  /\ convert_json_to_fit.weight_entry (takeout_entry 2 181 None "1/1/70" "00:00:00")
     = ([], Ok None)
  /\ convert_json_to_fit.weight_entries_of epoch_data
     = convert_json_to_fit.weight_entries_of
         (PList [takeout_entry 1 180 None "6/1/24" "08:00:00";
                 takeout_entry 3 182 None "6/3/24" "08:00:00"]).
Proof.
  split; [reflexivity|].
  apply (zero_timestamp_record_dropped
           (takeout_entry 2 181 None "1/1/70" "00:00:00") (PStr "1/1/70") (PStr "00:00:00")
           [takeout_entry 1 180 None "6/1/24" "08:00:00"]
           [takeout_entry 3 182 None "6/3/24" "08:00:00"]);
    reflexivity.
Defined.

(** * More of the code *)

(** ** What a successful conversion says about the records *)

Lemma map_result_all_ok {A B : Type} (f : A -> result B) :
  forall l ys, map_result f l = Ok ys ->
               List.length ys = List.length l /\ Forall (fun x => exists y, f x = Ok y) l.
Proof.
  induction l as [|x l IH]; simpl; intros ys H.
  - injection H as <-. split; [reflexivity|constructor].
  - apply bind_ok in H as (y & Hy & H).
    apply bind_ok in H as (ys' & Hys & H). injection H as <-.
    destruct (IH _ Hys) as [Hlen Hall].
    split; [simpl; now f_equal|]. constructor; eauto.
Qed.

Lemma py_getitem_ok (v : pyval) (k : string) (x : pyval) :
  py_getitem v k = Ok x -> exists d, v = PDict d /\ dict_lookup k d = Some x.
Proof.
  destruct v; simpl; try discriminate.
  destruct (dict_lookup k d) eqn:E; [|discriminate].
  intros [= <-]. eauto.
Qed.

Lemma py_truediv_ok (v : pyval) (d q : float) :
  py_truediv v d = Ok q -> is_number v = true.
Proof. destruct v; simpl; try discriminate; reflexivity. Qed.

Lemma body_fat_of_ok (d : list (string * pyval)) (fat : option pyval) :
  body_fat_of (PDict d) = Ok fat ->
  match dict_lookup "fat" d with
  | Some raw => is_number raw = true
  | None => True
  end.
Proof.
  unfold body_fat_of. simpl.
  destruct (dict_lookup "fat" d) as [raw|]; [|trivial].
  destruct raw; simpl; try discriminate; try reflexivity.
Qed.

Lemma converter_weight_entry_ok (entry : pyval) (m : fit_message) :
  converter.weight_entry entry = Ok m -> convertible_record entry.
Proof.
  unfold converter.weight_entry. intros H.
  apply bind_ok in H as (log_id & Hlog & H).
  apply bind_ok in H as (weight & Hweight & H).
  apply bind_ok in H as (weight_kg & Hkg & H).
  apply bind_ok in H as (body_fat & Hfat & _).
  apply py_getitem_ok in Hlog as (d & -> & Hlog).
  apply py_getitem_ok in Hweight as (d' & [= <-] & Hweight).
  unfold converter.convert_pounds_to_kg in Hkg.
  apply bind_ok in Hkg as (q & Hq & _).
  exists d, log_id, weight. repeat split; try assumption.
  - eapply py_truediv_ok; eassumption.
  - eapply body_fat_of_ok; eassumption.
Qed.

Section Pipeline.
Variable fit_to_bytes : list fit_message -> result bytes.

(** X1. The validator looks at the first record only, but the conversion
    succeeds only when every record can be converted: the data is a list, the
    count returned is its length, and each record is an object with a logId
    entry, a numeric weight and no fat entry that is not a number. *)
Theorem success_means_every_record_converted self json_data filename self' fit_bytes n :
  converter.process_json_data fit_to_bytes self json_data filename
  = Ok (self', (fit_bytes, n)) ->
  exists entries,
    json_data = PList entries
    /\ n = Z.of_nat (List.length entries)
    /\ Forall convertible_record entries.
Proof.
  intros H.
  apply process_json_data_ok in H
    as (file_id_msg & appended & Hvalid & _ & Happ & _ & -> & _).
  apply validate_true_shape in Hvalid as (first_entry & rest & -> & _).
  unfold converter.weight_entries_appended in Happ. simpl py_iter in Happ.
  cbn [bind] in Happ.
  apply map_result_all_ok in Happ as [Hlen Hall].
  exists (first_entry :: rest). split; [reflexivity|]. split; [now rewrite Hlen|].
  eapply Forall_impl; [|exact Hall].
  intros entry [m Hm]. eapply converter_weight_entry_ok; eassumption.
Qed.

(** X2. The bytes and the count do not depend on the file name: when the same
    data converts under two names, on any two converter objects, the results
    are the same. *)
Theorem bytes_independent_of_file_name self1 self2 json_data filename1 filename2
        self1' self2' bytes1 bytes2 n1 n2 :
  converter.process_json_data fit_to_bytes self1 json_data filename1
  = Ok (self1', (bytes1, n1)) ->
  converter.process_json_data fit_to_bytes self2 json_data filename2
  = Ok (self2', (bytes2, n2)) ->
  bytes1 = bytes2 /\ n1 = n2.
Proof.
  intros H1 H2.
  apply process_json_data_ok in H1 as (f1 & a1 & _ & Hf1 & Ha1 & Hb1 & -> & _).
  apply process_json_data_ok in H2 as (f2 & a2 & _ & Hf2 & Ha2 & Hb2 & -> & _).
  rewrite Hf1 in Hf2. injection Hf2 as <-.
  rewrite Ha1 in Ha2. injection Ha2 as <-.
  rewrite Hb1 in Hb2. injection Hb2 as <-.
  auto.
Qed.

(** X3. The week of the first record, which no output uses, can still end the
    conversion: when the file name gives no week and the first record's date
    is not a string, [strptime] raises [TypeError], which [except ValueError]
    lets through. *)
Theorem unused_week_can_abort self json_data filename first_entry date :
  converter.validate_google_takeout_format json_data = Ok true ->
  converter.extract_week_year_from_filename filename = Ok None ->
  py_index0 json_data = Ok first_entry ->
  py_getitem first_entry "date" = Ok date ->
  (forall s, date <> PStr s) ->
  converter.process_json_data fit_to_bytes self json_data filename = Raise TypeError.
Proof.
  intros Hvalid Hname Hfirst Hdate Hstr.
  unfold converter.process_json_data. rewrite Hvalid. cbn [bind negb].
  unfold converter.process_week_year. rewrite Hname. cbn [bind].
  rewrite Hfirst. cbn [bind].
  unfold converter.first_entry_week_year. rewrite Hdate. cbn [bind].
  destruct date; try reflexivity.
  now contradiction (Hstr s).
Qed.

End Pipeline.

(** ** A batch of files *)

Section Batch.
Variable fit_to_bytes : list fit_message -> result bytes.

Lemma process_json_data_any_counter self1 self2 json_data filename self1' fit_bytes n :
  converter.process_json_data fit_to_bytes self1 json_data filename
  = Ok (self1', (fit_bytes, n)) ->
  exists self2',
    converter.process_json_data fit_to_bytes self2 json_data filename
    = Ok (self2', (fit_bytes, n)).
Proof.
  intros H.
  pose proof (process_json_data_counter_free fit_to_bytes self1 self2 json_data filename) as E.
  rewrite H in E. simpl in E.
  destruct (converter.process_json_data fit_to_bytes self2 json_data filename)
    as [[c [b k]]|e]; simpl in E; [|discriminate].
  injection E as <- <-. eauto.
Qed.

Lemma process_json_data_raise_any_counter self1 self2 json_data filename e :
  converter.process_json_data fit_to_bytes self1 json_data filename = Raise e ->
  converter.process_json_data fit_to_bytes self2 json_data filename = Raise e.
Proof.
  intros H.
  pose proof (process_json_data_counter_free fit_to_bytes self1 self2 json_data filename) as E.
  rewrite H in E. simpl in E.
  destruct (converter.process_json_data fit_to_bytes self2 json_data filename)
    as [[c [b k]]|e']; simpl in E; [discriminate|].
  now injection E as <-.
Qed.

(** The conversion of one file, whatever the converter object. *)
Lemma convert_one_any_counter self1 self2 file :
  converter.convert_files fit_to_bytes self1 [file]
  = converter.convert_files fit_to_bytes self2 [file].
Proof.
  destruct file as [filename json_data]. simpl.
  destruct (converter.process_json_data fit_to_bytes self1 json_data filename)
    as [[c [b k]]|e] eqn:E.
  - destruct (process_json_data_any_counter _ self2 _ _ _ _ _ E) as [c2 ->].
    reflexivity.
  - now rewrite (process_json_data_raise_any_counter _ self2 _ _ _ E).
Qed.

(** The loop, one file at a time. *)
Lemma convert_files_cons self file rest :
  converter.convert_files fit_to_bytes self (file :: rest)
  = match converter.convert_files fit_to_bytes self [file] with
    | Ok one =>
        match (match converter.process_json_data fit_to_bytes self (snd file) (fst file) with
               | Ok (self', _) => converter.convert_files fit_to_bytes self' rest
               | Raise e => Raise e
               end) with
        | Ok others => Ok (one ++ others)%list
        | Raise e => Raise e
        end
    | Raise e => Raise e
    end.
Proof.
  destruct file as [filename json_data]. simpl.
  destruct (converter.process_json_data fit_to_bytes self json_data filename)
    as [[c [b k]]|e]; simpl; [|reflexivity].
  destruct (converter.get_output_filename filename); simpl; [|reflexivity].
  now destruct (converter.convert_files fit_to_bytes c rest).
Qed.

Lemma convert_files_each self files results :
  converter.convert_files fit_to_bytes self files = Ok results ->
  Forall2 (fun file res =>
             converter.convert_fitbit_to_garmin fit_to_bytes [file] = Ok [res])
          files results.
Proof.
  revert self results. induction files as [|file rest IH]; intros self results H.
  - simpl in H. injection H as <-. constructor.
  - rewrite convert_files_cons in H.
    destruct (converter.convert_files fit_to_bytes self [file]) as [one|] eqn:Eone;
      [|discriminate].
    assert (Hone : exists res, one = [res]).
    { destruct file as [filename json_data]. simpl in Eone.
      destruct (converter.process_json_data fit_to_bytes self json_data filename)
        as [[c [b k]]|]; simpl in Eone; [|discriminate].
      destruct (converter.get_output_filename filename); simpl in Eone; [|discriminate].
      injection Eone as <-. eauto. }
    destruct Hone as [res ->].
    destruct (converter.process_json_data fit_to_bytes self (snd file) (fst file))
      as [[self' x]|]; [|discriminate].
    destruct (converter.convert_files fit_to_bytes self' rest) as [others|] eqn:Erest;
      [|discriminate].
    injection H as <-. simpl. constructor.
    + unfold converter.convert_fitbit_to_garmin.
      now rewrite (convert_one_any_counter _ self).
    + eapply IH. eassumption.
Qed.

(** X4. A batch is converted file by file: when [convert_fitbit_to_garmin]
    returns, it returns one result per input file, in input order, and each is
    the result of converting that file on its own. *)
Theorem batch_is_file_by_file json_files results :
  converter.convert_fitbit_to_garmin fit_to_bytes json_files = Ok results ->
  Forall2 (fun file res =>
             converter.convert_fitbit_to_garmin fit_to_bytes [file] = Ok [res])
          json_files results.
Proof. apply convert_files_each. Qed.

Lemma convert_files_first_failure self pre file post e :
  Forall (fun f => exists res,
              converter.convert_fitbit_to_garmin fit_to_bytes [f] = Ok [res]) pre ->
  converter.convert_fitbit_to_garmin fit_to_bytes [file] = Raise e ->
  converter.convert_files fit_to_bytes self (pre ++ file :: post) = Raise e.
Proof.
  intros Hpre Hfile. revert self.
  induction Hpre as [|f pre [res Hf] _ IH]; intros self.
  - simpl app. rewrite convert_files_cons.
    unfold converter.convert_fitbit_to_garmin in Hfile.
    now rewrite (convert_one_any_counter self (converter.mk_converter 0)), Hfile.
  - simpl app. rewrite convert_files_cons.
    unfold converter.convert_fitbit_to_garmin in Hf.
    rewrite (convert_one_any_counter self (converter.mk_converter 0)), Hf.
    destruct f as [filename json_data]. simpl in Hf. simpl fst. simpl snd.
    destruct (converter.process_json_data fit_to_bytes (converter.mk_converter 0)
                json_data filename) as [[c [b k]]|] eqn:E; [|discriminate].
    destruct (process_json_data_any_counter _ self _ _ _ _ _ E) as [c2 ->].
    now rewrite IH.
Qed.

(** X5. The first file that fails ends the whole call: when the files before
    it convert and it raises, [convert_fitbit_to_garmin] raises the same
    exception and returns none of the results already computed, whatever files
    follow. *)
Theorem first_failure_aborts_batch pre file post e :
  Forall (fun f => exists res,
              converter.convert_fitbit_to_garmin fit_to_bytes [f] = Ok [res]) pre ->
  converter.convert_fitbit_to_garmin fit_to_bytes [file] = Raise e ->
  converter.convert_fitbit_to_garmin fit_to_bytes (pre ++ file :: post) = Raise e.
Proof. intros Hpre Hfile. now apply convert_files_first_failure. Qed.

End Batch.

(** ** The file name *)

Lemma py_int_raises (s : string) (e : exn) :
  py_int s = Raise e -> exists msg, e = ValueError msg.
Proof.
  unfold py_int.
  destruct (match strip s with
            | String "-" r => (true, r)
            | String "+" r => (false, r)
            | _ => (false, strip s)
            end) as [neg ds].
  destruct (int_digits ds true 0 0) as [[n count]|].
  - destruct (4300 <? count); [|discriminate]. intros [= <-]. eauto.
  - intros [= <-]. unfold invalid_literal. eauto.
Qed.

Lemma py_datetime_raises (y m d hh mm ss : Z) (e : exn) :
  py_datetime y m d hh mm ss = Raise e ->
  e = OverflowError \/ exists msg, e = ValueError msg.
Proof.
  unfold py_datetime.
  repeat match goal with
         | |- context [if ?b then _ else _] => destruct b
         end;
    intros [= <-]; eauto.
Qed.

(** X6. [extract_week_year_from_filename] raises nothing but [OverflowError]:
    parts that are not integers or not a date give [None], but a year, month
    or day beyond the range of a C [int] gets past
    [except (ValueError, IndexError)]. *)
Theorem extract_week_year_raises_only_overflow (filename : string) (e : exn) :
  converter.extract_week_year_from_filename filename = Raise e -> e = OverflowError.
Proof.
  unfold converter.extract_week_year_from_filename.
  set (parts := split "-" (remove_all ".json" filename)).
  destruct ((4 <=? List.length parts)%nat && String.eqb (nth 0 parts "") "weight");
    [|discriminate].
  destruct (py_int (nth 1 parts "")) as [year|e1] eqn:E1; simpl.
  2:{ apply py_int_raises in E1 as [msg ->]. discriminate. }
  destruct (py_int (nth 2 parts "")) as [month|e2] eqn:E2; simpl.
  2:{ apply py_int_raises in E2 as [msg ->]. discriminate. }
  destruct (py_int (nth 3 parts "")) as [day|e3] eqn:E3; simpl.
  2:{ apply py_int_raises in E3 as [msg ->]. discriminate. }
  destruct (py_datetime year month day 0 0 0) as [dt|e4] eqn:E4; simpl; [discriminate|].
  apply py_datetime_raises in E4 as [->|[msg ->]]; [|discriminate].
  now intros [= <-].
Qed.

(** ** The calendar *)

Lemma is_leap_spec y : is_leap y = true <-> (y mod 4 = 0 /\ y mod 100 <> 0) \/ y mod 400 = 0.
Proof.
  unfold is_leap. rewrite orb_true_iff, andb_true_iff, negb_true_iff, !Z.eqb_eq, Z.eqb_neq.
  tauto.
Qed.

Lemma days_before_year_succ y :
  days_before_year (y + 1) = days_before_year y + (if is_leap y then 366 else 365).
Proof.
  unfold days_before_year.
  replace (y + 1 - 1) with y by lia.
  destruct (is_leap y) eqn:E.
  - apply is_leap_spec in E. Z.div_mod_to_equations. lia.
  - assert (~ ((y mod 4 = 0 /\ y mod 100 <> 0) \/ y mod 400 = 0)).
    { rewrite <- is_leap_spec. congruence. }
    Z.div_mod_to_equations. lia.
Qed.

Lemma days_before_year_lt y y' : y < y' -> days_before_year y + 365 <= days_before_year y'.
Proof.
  intros H. unfold days_before_year. Z.div_mod_to_equations. lia.
Qed.

Lemma month_cases m : 1 <= m <= 12 ->
  m = 1 \/ m = 2 \/ m = 3 \/ m = 4 \/ m = 5 \/ m = 6 \/ m = 7 \/ m = 8 \/ m = 9 \/ m = 10 \/ m = 11 \/ m = 12.
Proof. lia. Qed.

Lemma ymd2ord_bounds y m d : 1 <= m <= 12 -> 1 <= d <= days_in_month y m ->
  days_before_year y + 1 <= ymd2ord y m d <= days_before_year y + (if is_leap y then 366 else 365).
Proof.
  intros Hm Hd. unfold ymd2ord.
  apply month_cases in Hm.
  unfold days_in_month, days_before_month in *. revert Hd.
  destruct (is_leap y);
  repeat (destruct Hm as [->|Hm]; [simpl; lia|]); subst; simpl; lia.
Qed.

Lemma ymd2ord_month_lt y m d m' d' :
  1 <= m <= 12 -> 1 <= d <= days_in_month y m -> 1 <= m' <= 12 -> 1 <= d' ->
  m < m' -> ymd2ord y m d < ymd2ord y m' d'.
Proof.
  intros Hm Hd Hm' Hd' Hlt. unfold ymd2ord.
  apply month_cases in Hm. apply month_cases in Hm'.
  unfold days_in_month, days_before_month in *. revert Hd.
  destruct (is_leap y);
  repeat (destruct Hm as [->|Hm]; [repeat (destruct Hm' as [->|Hm']; [simpl; lia|]); subst; simpl; lia|]);
  subst; repeat (destruct Hm' as [->|Hm']; [simpl; lia|]); subst; simpl; lia.
Qed.

Lemma ymd2ord_jan1 y : ymd2ord y 1 1 = days_before_year y + 1.
Proof. unfold ymd2ord, days_before_month. simpl. lia. Qed.

Lemma isoweek1monday_spec y :
  (isoweek1monday y + 6) mod 7 = 0
  /\ days_before_year y - 2 <= isoweek1monday y <= days_before_year y + 4.
Proof.
  unfold isoweek1monday. rewrite ymd2ord_jan1.
  set (fd := days_before_year y + 1).
  destruct (3 <? (fd + 6) mod 7) eqn:E;
    [apply Z.ltb_lt in E|apply Z.ltb_ge in E];
    Z.div_mod_to_equations; lia.
Qed.

Lemma iso_week_bounds y m d hh mm ss :
  1 <= m <= 12 -> 1 <= d <= days_in_month y m ->
  1 <= iso_week (mk_datetime y m d hh mm ss) <= 53.
Proof.
  intros Hm Hd. unfold iso_week. simpl.
  pose proof (ymd2ord_bounds y m d Hm Hd) as Htoday.
  pose proof (isoweek1monday_spec y) as [Hmon Hw].
  pose proof (isoweek1monday_spec (y - 1)) as [Hmon1 Hw1].
  pose proof (isoweek1monday_spec (y + 1)) as [Hmon2 Hw2].
  pose proof (days_before_year_succ y) as Hs.
  pose proof (days_before_year_succ (y - 1)) as Hp.
  replace (y - 1 + 1) with y in Hp by lia.
  set (today := ymd2ord y m d) in *.
  set (w := isoweek1monday y) in *.
  set (w1 := isoweek1monday (y - 1)) in *.
  set (w2 := isoweek1monday (y + 1)) in *.
  set (b := days_before_year y) in *.
  set (b1 := days_before_year (y - 1)) in *.
  set (b2 := days_before_year (y + 1)) in *.
  destruct (is_leap y), (is_leap (y - 1));
  destruct ((today - w) / 7 <? 0) eqn:E1;
    try (apply Z.ltb_lt in E1); try (apply Z.ltb_ge in E1);
    try (destruct ((52 <=? (today - w) / 7) && (w2 <=? today)) eqn:E2);
    try lia;
    Z.div_mod_to_equations; lia.
Qed.

Lemma py_datetime_ok y m d hh mm ss dt :
  py_datetime y m d hh mm ss = Ok dt ->
  dt = mk_datetime y m d hh mm ss /\ valid_datetime dt.
Proof.
  unfold py_datetime.
  repeat match goal with
         | |- context [if negb ?b then _ else _] => destruct b eqn:?; simpl
         end; try discriminate.
  intros [= <-]. split; [reflexivity|]. unfold valid_datetime. simpl.
  repeat match goal with
         | H : (_ && _) = true |- _ => apply andb_true_iff in H as [? ?]
         | H : (_ <=? _) = true |- _ => apply Z.leb_le in H
         end.
  lia.
Qed.

Lemma epoch_seconds_earlier a b :
  valid_datetime a -> valid_datetime b -> earlier a b ->
  epoch_seconds a < epoch_seconds b.
Proof.
  intros (Hya & Hma & Hda & Hha & Hmia & Hsa) (Hyb & Hmb & Hdb & Hhb & Hmib & Hsb) H.
  unfold epoch_seconds.
  assert (Hord : ymd2ord (dt_year a) (dt_month a) (dt_day a)
                 < ymd2ord (dt_year b) (dt_month b) (dt_day b)
                 \/ ymd2ord (dt_year a) (dt_month a) (dt_day a)
                    = ymd2ord (dt_year b) (dt_month b) (dt_day b)
                    /\ dt_hour a * 3600 + dt_minute a * 60 + dt_second a
                       < dt_hour b * 3600 + dt_minute b * 60 + dt_second b).
  { destruct H as [Hy|[Hy [Hm|[Hm [Hd|[Hd Ht]]]]]].
    - left.
      pose proof (ymd2ord_bounds _ _ _ Hma Hda).
      pose proof (ymd2ord_bounds _ _ _ Hmb Hdb).
      pose proof (days_before_year_succ (dt_year a)).
      assert (days_before_year (dt_year a + 1) <= days_before_year (dt_year b)).
      { destruct (Z.eq_dec (dt_year a + 1) (dt_year b)) as [<-|]; [lia|].
        pose proof (days_before_year_lt (dt_year a + 1) (dt_year b)). lia. }
      destruct (is_leap (dt_year a)); lia.
    - left. rewrite <- Hy. apply ymd2ord_month_lt; try assumption; lia.
    - left. rewrite <- Hy, <- Hm. unfold ymd2ord. lia.
    - right. rewrite Hy, Hm, Hd. split; [reflexivity|]. lia. }
  lia.
Qed.

Lemma earlier_total a b :
  earlier a b \/ a = b \/ earlier b a.
Proof.
  destruct a as [ya ma da ha mia sa], b as [yb mb db hb mib sb]. unfold earlier. simpl.
  destruct (Z.lt_trichotomy ya yb) as [?|[->|?]]; [tauto| |tauto].
  destruct (Z.lt_trichotomy ma mb) as [?|[->|?]]; [tauto| |tauto].
  destruct (Z.lt_trichotomy da db) as [?|[->|?]]; [tauto| |tauto].
  destruct (Z.lt_trichotomy ha hb) as [?|[->|?]]; [tauto| |tauto].
  destruct (Z.lt_trichotomy mia mib) as [?|[->|?]]; [tauto| |tauto].
  destruct (Z.lt_trichotomy sa sb) as [?|[->|?]]; tauto.
Qed.

Lemma epoch_seconds_injective a b :
  valid_datetime a -> valid_datetime b -> epoch_seconds a = epoch_seconds b -> a = b.
Proof.
  intros Ha Hb E.
  destruct (earlier_total a b) as [H|[H|H]]; [|exact H|].
  - pose proof (epoch_seconds_earlier a b Ha Hb H). lia.
  - pose proof (epoch_seconds_earlier b a Hb Ha H). lia.
Qed.

(** ** Weeks and timestamps *)

(** Validity of a [datetime] given by its six numbers. *)
Ltac valid_literal :=
  unfold valid_datetime; cbn [dt_year dt_month dt_day dt_hour dt_minute dt_second];
  repeat split; vm_compute; discriminate.

Lemma strptime_valid (text : string) (format : list token) (dt : datetime) :
  strptime text format = Ok dt -> valid_datetime dt.
Proof.
  unfold strptime.
  destruct (match_pattern format text []) as [[caps rest]|]; [|discriminate].
  destruct (negb (String.eqb rest "")); [discriminate|].
  intros H.
  apply bind_ok in H as (yy & _ & H).
  apply bind_ok in H as (y4 & _ & H).
  apply bind_ok in H as (m & _ & H).
  apply bind_ok in H as (d & _ & H).
  apply bind_ok in H as (hh & _ & H).
  apply bind_ok in H as (mm & _ & H).
  apply bind_ok in H as (ss & _ & H).
  now apply py_datetime_ok in H as [_ H].
Qed.

(** A timestamp the script computes is 1000 times the epoch seconds of the
    parsed date and time, and nothing was printed. *)
Lemma convert_date_ok (date_str time_str : pyval) (out : list convert_json_to_fit.event)
      (z : Z) :
  convert_json_to_fit.convert_date_to_unix_timestamp date_str time_str = (out, Ok (Some z)) ->
  exists dt,
    parses_to date_str time_str dt /\ valid_datetime dt
    /\ z = epoch_seconds dt * 1000 /\ out = [].
Proof.
  unfold convert_json_to_fit.convert_date_to_unix_timestamp.
  destruct date_str as [| | | |d| |]; try discriminate.
  destruct (nth_error (split "/" d) 2) as [year_part|] eqn:Eyear; [|discriminate].
  destruct time_str as [| | | |t| |]; try discriminate.
  fold (year_directive year_part).
  destruct (strptime (d ++ " " ++ t) (date_tokens (year_directive year_part) ++ time_tokens))
    as [dt|e] eqn:E.
  - intros [= <- <-]. exists dt.
    split; [now exists d, t, year_part|].
    split; [eapply strptime_valid; eassumption|].
    split; reflexivity.
  - destruct e; discriminate.
Qed.

Lemma week_year_of_valid_date (y m d : Z) (dt : datetime) :
  py_datetime y m d 0 0 0 = Ok dt ->
  1 <= iso_week dt <= 53 /\ 1 <= y <= 9999.
Proof.
  intros H. apply py_datetime_ok in H as [-> (Hy & Hm & Hd & _)]. simpl in *.
  split; [now apply iso_week_bounds|exact Hy].
Qed.

(** X7. A name built from the file name always carries an ISO week between 1
    and 53 and a year between 1 and 9999: [get_output_filename] returns the
    fixed fallback name or ["Weight W-Y Fitbit.fit"] with such [W] and [Y], and
    the script's [get_week_number_from_filename] returns only such ["W-Y"]. *)
Theorem output_name_week_in_range :
  (forall input_filename name,
      converter.get_output_filename input_filename = Ok name ->
      name = "Weight Converted Fitbit.fit"
      \/ exists week year,
          1 <= week <= 53 /\ 1 <= year <= 9999
          /\ name = weight_file_name (week_year_text week year))
  /\ (forall filename w,
         convert_json_to_fit.get_week_number_from_filename filename = Ok (Some w) ->
         exists week year,
           1 <= week <= 53 /\ 1 <= year <= 9999 /\ w = week_year_text week year).
Proof.
  split.
  - intros input_filename name H.
    unfold converter.get_output_filename in H.
    apply bind_ok in H as ([w|] & Hw & H); injection H as <-; [right|now left].
    unfold converter.extract_week_year_from_filename in Hw.
    set (parts := split "-" (remove_all ".json" input_filename)) in Hw.
    destruct ((4 <=? List.length parts)%nat && String.eqb (nth 0 parts "") "weight");
      [|discriminate].
    destruct (py_int (nth 1 parts "")) as [year|[]]; simpl in Hw; try discriminate.
    destruct (py_int (nth 2 parts "")) as [month|[]]; simpl in Hw; try discriminate.
    destruct (py_int (nth 3 parts "")) as [day|[]]; simpl in Hw; try discriminate.
    destruct (py_datetime year month day 0 0 0) as [dt|[]] eqn:E; simpl in Hw;
      try discriminate.
    injection Hw as <-.
    apply week_year_of_valid_date in E as [Hweek Hyear].
    now exists (iso_week dt), year.
  - intros filename w H.
    unfold convert_json_to_fit.get_week_number_from_filename in H.
    set (parts := split "-" (remove_all ".json" (last (split "/" filename) ""))) in H.
    destruct (4 <=? List.length parts)%nat; [|discriminate].
    apply bind_ok in H as (year & _ & H).
    apply bind_ok in H as (month & _ & H).
    apply bind_ok in H as (day & _ & H).
    apply bind_ok in H as (dt & E & H).
    injection H as <-.
    apply week_year_of_valid_date in E as [Hweek Hyear].
    now exists (iso_week dt), year.
Qed.

(** X8. The script drops a record for a zero timestamp only at the epoch: a
    conversion that gives 0 comes from a date and time that parse to
    1970-01-01 00:00:00, and it printed nothing. *)
Theorem zero_timestamp_only_at_epoch (date_str time_str : pyval)
        (out : list convert_json_to_fit.event) :
  convert_json_to_fit.convert_date_to_unix_timestamp date_str time_str = (out, Ok (Some 0)) ->
  parses_to date_str time_str (mk_datetime 1970 1 1 0 0 0) /\ out = [].
Proof.
  intros H. apply convert_date_ok in H as (dt & Hparse & Hvalid & Hz & ->).
  split; [|reflexivity].
  assert (Hdt : dt = mk_datetime 1970 1 1 0 0 0).
  { apply epoch_seconds_injective; [exact Hvalid| |].
    - valid_literal.
    - change (epoch_seconds (mk_datetime 1970 1 1 0 0 0)) with 0. lia. }
  now rewrite <- Hdt.
Qed.

(** A date and a time parse to one [datetime] at most. *)
Lemma parses_to_functional (date_str time_str : pyval) (dt dt' : datetime) :
  parses_to date_str time_str dt -> parses_to date_str time_str dt' -> dt' = dt.
Proof.
  intros (d & t & year_part & -> & -> & Hy & H) (d' & t' & year_part' & Ed & Et & Hy' & H').
  injection Ed as <-. injection Et as <-.
  rewrite Hy in Hy'. injection Hy' as <-.
  rewrite H in H'. now injection H'.
Qed.

(** X9. Timestamps follow the calendar: when the dates and times of two
    records convert, each of them parses, in the format the script chooses for
    it, to one date and time; the first timestamp is smaller exactly when the
    first of these is earlier, and the timestamps are equal exactly when the
    two are the same. *)
Theorem timestamps_follow_calendar (date1 time1 date2 time2 : pyval)
        (out1 out2 : list convert_json_to_fit.event) (z1 z2 : Z) :
  convert_json_to_fit.convert_date_to_unix_timestamp date1 time1 = (out1, Ok (Some z1)) ->
  convert_json_to_fit.convert_date_to_unix_timestamp date2 time2 = (out2, Ok (Some z2)) ->
  exists dt1 dt2,
    parses_to date1 time1 dt1 /\ parses_to date2 time2 dt2
    /\ (forall dt, parses_to date1 time1 dt -> dt = dt1)
    /\ (forall dt, parses_to date2 time2 dt -> dt = dt2)
    /\ (z1 < z2 <-> earlier dt1 dt2)
    /\ (z1 = z2 <-> dt1 = dt2).
Proof.
  intros H1 H2.
  apply convert_date_ok in H1 as (dt1 & Hp1 & Hv1 & -> & _).
  apply convert_date_ok in H2 as (dt2 & Hp2 & Hv2 & -> & _).
  exists dt1, dt2. split; [exact Hp1|]. split; [exact Hp2|].
  split; [intros dt; now apply parses_to_functional|].
  split; [intros dt; now apply parses_to_functional|].
  pose proof (epoch_seconds_earlier dt1 dt2 Hv1 Hv2) as H12.
  pose proof (epoch_seconds_earlier dt2 dt1 Hv2 Hv1) as H21.
  destruct (earlier_total dt1 dt2) as [E|[E|E]].
  - specialize (H12 E). split; split; intros H; try lia; try assumption.
    subst dt2. lia.
  - subst dt2. split; split; intros H; try lia; try reflexivity.
    specialize (H12 H). lia.
  - specialize (H21 E). split; split; intros H; try lia.
    + specialize (H12 H). lia.
    + subst dt2. lia.
Qed.

(** X10. Every timestamp the script computes lies between the first second of
    year 1 and the last second of year 9999, in milliseconds; it is a multiple
    of 1000 and below [2 ^ 53] in absolute value, so [int(timestamp * 1000)]
    loses nothing in floating point. *)
Theorem timestamp_range (date_str time_str : pyval)
        (out : list convert_json_to_fit.event) (z : Z) :
  convert_json_to_fit.convert_date_to_unix_timestamp date_str time_str = (out, Ok (Some z)) ->
  - 62135596800000 <= z <= 253402300799000
  /\ z mod 1000 = 0
  /\ Z.abs z < 2 ^ 53.
Proof.
  intros H. apply convert_date_ok in H as (dt & _ & Hvalid & -> & _).
  assert (Hrange : epoch_seconds (mk_datetime 1 1 1 0 0 0) <= epoch_seconds dt
                   <= epoch_seconds (mk_datetime 9999 12 31 23 59 59)).
  { split.
    - destruct (earlier_total (mk_datetime 1 1 1 0 0 0) dt) as [E|[<-|E]].
      + apply Z.lt_le_incl, epoch_seconds_earlier; try assumption.
        valid_literal.
      + lia.
      + exfalso. destruct Hvalid as (? & ? & ? & ? & ? & ?).
        unfold earlier in E. simpl in E. lia.
    - destruct (earlier_total dt (mk_datetime 9999 12 31 23 59 59)) as [E|[->|E]].
      + apply Z.lt_le_incl, epoch_seconds_earlier; try assumption.
        valid_literal.
      + lia.
      + exfalso. destruct Hvalid as (? & ? & Hd & ? & ? & ?).
        unfold earlier in E. simpl in E.
        assert (dt_month dt = 12 -> dt_day dt <= 31).
        { intros Hm. rewrite Hm in Hd. unfold days_in_month in Hd. simpl in Hd. lia. }
        lia. }
  change (epoch_seconds (mk_datetime 1 1 1 0 0 0)) with (- 62135596800) in Hrange.
  change (epoch_seconds (mk_datetime 9999 12 31 23 59 59)) with 253402300799 in Hrange.
  split; [lia|]. split; [apply Z.mod_mul; lia|].
  change (2 ^ 53) with 9007199254740992. lia.
Qed.

(** ** The script's loop and log *)

Lemma convert_date_prints (date_str time_str : pyval)
      (out : list convert_json_to_fit.event) (t : option Z) :
  convert_json_to_fit.convert_date_to_unix_timestamp date_str time_str = (out, Ok t) ->
  match t with
  | Some _ => out = []
  | None => exists d s, out = [convert_json_to_fit.ErrorParsingDate d s]
  end.
Proof.
  unfold convert_json_to_fit.convert_date_to_unix_timestamp.
  destruct date_str as [| | | |d| |]; try discriminate.
  destruct (nth_error (split "/" d) 2) as [year_part|]; [|discriminate].
  destruct time_str as [| | | |s| |];
    try (intros [= <- <-]; cbn [app]; eauto).
  destruct (strptime _ _) as [dt|[]]; try discriminate.
  - now intros [= <- <-].
  - intros [= <- <-]. cbn [app]. eauto.
Qed.

(** One turn of the loop that did not raise: a message and no line, or no
    message and at most one line, which reports the date. *)
Lemma script_weight_entry_prints (entry : pyval) (out : list convert_json_to_fit.event)
      (r : option fit_message) :
  convert_json_to_fit.weight_entry entry = (out, Ok r) ->
  match r with
  | Some _ => out = []
  | None => out = [] \/ exists d t, out = [convert_json_to_fit.ErrorParsingDate d t]
  end.
Proof.
  unfold convert_json_to_fit.weight_entry. intros H.
  apply io_bind_ok in H as (o1 & date_str & o2 & Hd & H & ->).
  apply io_lift_ok in Hd as [_ ->].
  apply io_bind_ok in H as (o3 & time_str & o4 & Ht & H & ->).
  apply io_lift_ok in Ht as [_ ->].
  apply io_bind_ok in H as (o5 & t & o6 & Hc & H & ->).
  apply convert_date_prints in Hc.
  destruct (negb (convert_json_to_fit.timestamp_truthy t)) eqn:E.
  - injection H as <- <-. simpl. rewrite app_nil_r.
    destruct t; [left|right]; assumption.
  - destruct t as [z|]; [|discriminate]. subst o5.
    apply io_bind_ok in H as (o7 & w & o8 & Hw & H & ->).
    apply io_lift_ok in Hw as [_ ->].
    apply io_bind_ok in H as (o9 & kg & o10 & Hk & H & ->).
    apply io_lift_ok in Hk as [_ ->].
    apply io_bind_ok in H as (o11 & fat & o12 & Hf & H & ->).
    apply io_lift_ok in Hf as [_ ->].
    apply io_bind_ok in H as (o13 & u & o14 & Hs & H & ->).
    apply io_lift_ok in Hs as [_ ->].
    now injection H as <- <-.
Qed.

(** X11. The script accounts for its records: when the loop over the entries
    ends without exception, every line it printed reports an unparsable date,
    and the messages built plus the lines printed are at most the entries
    read. *)
Theorem script_loop_accounting (entries : list pyval)
        (out : list convert_json_to_fit.event) (msgs : list fit_message) :
  convert_json_to_fit.weight_entries_loop entries = (out, Ok msgs) ->
  Forall is_parse_error out
  /\ (List.length msgs + List.length out <= List.length entries)%nat.
Proof.
  revert out msgs. induction entries as [|entry rest IH]; simpl; intros out msgs H.
  - injection H as <- <-. split; [constructor|reflexivity].
  - apply io_bind_ok in H as (o1 & r & o2 & Hentry & H & ->).
    apply io_bind_ok in H as (o3 & ms & o4 & Hrest & H & ->).
    injection H as <- <-. rewrite app_nil_r.
    destruct (IH _ _ Hrest) as [Hall Hlen].
    apply script_weight_entry_prints in Hentry.
    destruct r as [m|].
    + subst o1. simpl. split; [exact Hall|lia].
    + destruct Hentry as [->|(d & t & ->)]; simpl.
      * split; [exact Hall|lia].
      * split; [constructor; [now exists d, t|exact Hall]|lia].
Qed.

(** ** The two converters on one record *)

(** X14. The two converters build the same message from a record whose logId
    is the timestamp its date and time parse to, provided it is not 0; and when
    one raises on the record, the other raises the same exception. *)
Theorem converters_agree_on_record (entry date_str time_str : pyval) (log_id : Z) :
  py_getitem entry "logId" = Ok (PInt log_id) ->
  py_getitem entry "date" = Ok date_str ->
  py_getitem entry "time" = Ok time_str ->
  convert_json_to_fit.convert_date_to_unix_timestamp date_str time_str
  = ([], Ok (Some log_id)) ->
  log_id <> 0 ->
  convert_json_to_fit.weight_entry entry
  = ([], match converter.weight_entry entry with
         | Ok m => Ok (Some m)
         | Raise e => Raise e
         end).
Proof.
  intros Hlog Hdate Htime Hconv Hnz.
  unfold convert_json_to_fit.weight_entry, converter.weight_entry.
  rewrite Hlog, Hdate, Htime, !io_bind_lift_ok, Hconv. simpl.
  apply Z.eqb_neq in Hnz. rewrite Hnz. simpl.
  fold (convert_json_to_fit.convert_pounds_to_kg).
  destruct (py_getitem entry "weight") as [weight|]; simpl; [|reflexivity].
  change (convert_json_to_fit.convert_pounds_to_kg weight)
    with (converter.convert_pounds_to_kg weight).
  destruct (converter.convert_pounds_to_kg weight) as [kg|]; simpl; [|reflexivity].
  destruct (body_fat_of entry) as [fat|]; simpl; [|reflexivity].
  now destruct (weight_scale_stored log_id kg fat).
Qed.

(** ** The validation endpoint and the validator *)

Lemma missing_fields_nil (fields : list string) (v : pyval) :
  main.missing_fields fields v = Ok [] <-> converter.all_in fields v = Ok true.
Proof.
  induction fields as [|field fields IH]; simpl; [tauto|].
  destruct (py_in field v) as [[|]|e]; simpl.
  - rewrite <- IH.
    destruct (main.missing_fields fields v) as [[|]|]; simpl; split;
      congruence.
  - destruct (main.missing_fields fields v) as [[|]|]; simpl; split;
      congruence.
  - split; congruence.
Qed.

Lemma dates_ok_iff_objects (entries : list pyval) :
  (exists dates, map_result (fun entry => py_get entry "date" (PStr "")) entries = Ok dates)
  <-> Forall (fun entry => is_object entry = true) entries.
Proof.
  induction entries as [|entry rest IH]; simpl.
  - split; [constructor|eauto].
  - split.
    + intros [dates H].
      apply bind_ok in H as (x & Hx & H).
      apply bind_ok in H as (xs & Hxs & _).
      constructor; [now destruct entry|].
      apply IH. eauto.
    + intros H. inversion H as [|? ? Hobj Hrest]; subst.
      apply IH in Hrest as [dates ->].
      destruct entry; try discriminate. simpl. eauto.
Qed.

Section Endpoint.
Variable py_str : pyval -> string.

(** X15. The validation endpoint is stricter than the converter's validator:
    it reports a file valid exactly when the data is a list that the validator
    accepts and every record of which is an object; the answer then carries
    the number of records and no error message. *)
Theorem endpoint_valid_iff (name : string) (data : pyval) :
  (main.is_valid (main.validate_file py_str name data) = true
   <-> exists entries,
       data = PList entries
       /\ converter.validate_google_takeout_format data = Ok true
       /\ Forall (fun entry => is_object entry = true) entries)
  /\ (main.is_valid (main.validate_file py_str name data) = true ->
      exists entries,
        data = PList entries
        /\ main.entry_count (main.validate_file py_str name data)
           = Some (Z.of_nat (List.length entries))
        /\ main.error_message (main.validate_file py_str name data) = None).
Proof.
  assert (Hnot : forall r : main.FileValidationResult,
             (exists why, r = main.invalid name why) ->
             forall P : Prop, (P -> False) -> (main.is_valid r = true <-> P)
                               /\ (main.is_valid r = true -> False)).
  { intros r [why ->] P HP. simpl. split; [split|]; [discriminate|tauto|discriminate]. }
  assert (Hout : forall r, (main.is_valid r = true -> False) ->
                           main.is_valid r = true ->
                           exists entries,
                             data = PList entries
                             /\ main.entry_count r = Some (Z.of_nat (List.length entries))
                             /\ main.error_message r = None)
    by (intros r H1 H2; now destruct (H1 H2)).
  unfold main.validate_file.
  destruct data as [| | | | |[|first_entry rest]|];
    try (edestruct Hnot as [H1 H2];
         [eexists; reflexivity| |split; [exact H1|now apply Hout]];
         now intros (entries & [=] & _)).
  - edestruct Hnot as [H1 H2];
      [eexists; reflexivity| |split; [exact H1|now apply Hout]].
    intros (entries & _ & [=] & _).
  - pose proof (missing_fields_nil converter.required_fields first_entry) as Hm.
    pose proof (dates_ok_iff_objects (first_entry :: rest)) as Hd.
    change (converter.validate_google_takeout_format (PList (first_entry :: rest)))
      with (converter.all_in converter.required_fields first_entry).
    destruct (main.missing_fields converter.required_fields first_entry)
      as [[|field missing]|e] eqn:Emiss; cbn [bind].
    + assert (Hall : converter.all_in converter.required_fields first_entry = Ok true)
        by now apply Hm.
      destruct (map_result (fun entry => py_get entry "date" (PStr ""))
                           (first_entry :: rest)) as [dates|e] eqn:Edates; cbn [bind].
      * simpl. split.
        -- split; [|reflexivity]. intros _. exists (first_entry :: rest).
           split; [reflexivity|]. split; [exact Hall|]. apply Hd. eauto.
        -- intros _. exists (first_entry :: rest). auto.
      * edestruct Hnot as [H1 H2];
          [eexists; reflexivity| |split; [exact H1|now apply Hout]].
        intros (entries & [= <-] & _ & Hobj).
        apply Hd in Hobj as [dates Hdates]. congruence.
    + edestruct Hnot as [H1 H2];
        [eexists; reflexivity| |split; [exact H1|now apply Hout]].
      intros (entries & _ & Hall & _). apply Hm in Hall. discriminate.
    + edestruct Hnot as [H1 H2];
        [eexists; reflexivity| |split; [exact H1|now apply Hout]].
      intros (entries & _ & Hall & _). apply Hm in Hall. discriminate.
Qed.

End Endpoint.

Example validate_file_examples :
  let py_str := fun v => match v with PStr s => s | _ => "" end in
  main.validate_file py_str "weight-2024-06-01.json" scenario_data
  = main.mk_validation "weight-2024-06-01.json" true (Some 1) (Some "6/1/24 to 6/1/24") None
  /\ main.validate_file py_str "a.json" (PList [PInt 1])
     = main.invalid "a.json" (main.ValidationException TypeError)
  /\ main.validate_file py_str "a.json" (PList [PDict [("logId", PInt 1)]])
     = main.invalid "a.json" (main.MissingFields ["weight"; "date"; "time"])
  /\ main.validate_file py_str "a.json" (PDict [])
     = main.invalid "a.json" main.NotAnArray.
Proof. repeat split. Qed.

(** ** The two readings of a file name *)

Lemma split_without_separator (sep : ascii) (s : string) :
  str_contains (String sep EmptyString) s = false -> split sep s = [s].
Proof.
  induction s as [|c s IH]; simpl; [reflexivity|].
  destruct (ascii_dec sep c) as [->|Hne].
  - now destruct s.
  - destruct (Ascii.eqb c sep) eqn:E; [apply Ascii.eqb_eq in E; congruence|].
    intros H. now rewrite (IH H).
Qed.

(** X16. On a name without directory part, the script reads at least what the
    web service reads: when [extract_week_year_from_filename] finds a week and
    year, [get_week_number_from_filename] finds the same. *)
Theorem script_reads_backend_names (filename w : string) :
  str_contains "/" filename = false ->
  converter.extract_week_year_from_filename filename = Ok (Some w) ->
  convert_json_to_fit.get_week_number_from_filename filename = Ok (Some w).
Proof.
  intros Hplain H.
  unfold convert_json_to_fit.get_week_number_from_filename.
  rewrite (split_without_separator "/" filename Hplain). simpl last.
  unfold converter.extract_week_year_from_filename in H.
  set (parts := split "-" (remove_all ".json" filename)) in *.
  destruct (4 <=? List.length parts)%nat; [|discriminate].
  destruct (String.eqb (nth 0 parts "") "weight"); [|discriminate].
  simpl in H.
  destruct (py_int (nth 1 parts "")) as [year|[]]; simpl in *; try discriminate.
  destruct (py_int (nth 2 parts "")) as [month|[]]; simpl in *; try discriminate.
  destruct (py_int (nth 3 parts "")) as [day|[]]; simpl in *; try discriminate.
  destruct (py_datetime year month day 0 0 0) as [dt|[]]; simpl in *; try discriminate.
  exact H.
Qed.

(** ** The two-digit year *)

Lemma first_alt_some {R : Type} (alts : list (list cclass)) (s : string)
      (k : string -> string -> option R) (r : R) :
  first_alt alts s k = Some r ->
  exists alt txt rest, In alt alts /\ match_seq alt s = Some (txt, rest) /\ k txt rest = Some r.
Proof.
  induction alts as [|a alts IH]; simpl; [discriminate|].
  destruct (match_seq a s) as [[txt rest]|] eqn:E.
  - destruct (k txt rest) as [r'|] eqn:Ek.
    + intros [= <-]. exists a, txt, rest. auto.
    + intros H. destruct (IH H) as (alt & txt' & rest' & Hin & Hm & Hk).
      exists alt, txt', rest'. auto.
  - intros H. destruct (IH H) as (alt & txt' & rest' & Hin & Hm & Hk).
    exists alt, txt', rest'. auto.
Qed.

Lemma spaces_star_some {R : Type} (s : string) (k : string -> option R) (r : R) :
  spaces_star s k = Some r -> exists rest, k rest = Some r.
Proof.
  induction s as [|c s IH]; simpl; [eauto|].
  destruct (is_space c); [|eauto].
  destruct (spaces_star s k) as [r'|] eqn:E; [|eauto].
  intros [= <-]. now apply IH.
Qed.

Lemma spaces_plus_some {R : Type} (s : string) (k : string -> option R) (r : R) :
  spaces_plus s k = Some r -> exists rest, k rest = Some r.
Proof.
  destruct s as [|c s]; simpl; [discriminate|].
  destruct (is_space c); [|discriminate]. apply spaces_star_some.
Qed.

Lemma match_seq_two_digits (s txt rest : string) :
  match_seq [CDigit; CDigit] s = Some (txt, rest) -> two_digits txt.
Proof.
  destruct s as [|c1 [|c2 s]]; simpl; try discriminate.
  - destruct (is_digit c1); discriminate.
  - destruct (is_digit c1) eqn:E1; [|discriminate].
    destruct (is_digit c2) eqn:E2; [|discriminate].
    intros [= <- <-]. now exists c1, c2.
Qed.

Lemma capture_other (d : directive) (txt : string) (caps : captures) :
  d <> Dy -> capture_of Dy ((d, txt) :: caps) = capture_of Dy caps.
Proof. destruct d; simpl; congruence. Qed.

Lemma match_pattern_keeps_year (p : list token) :
  Forall no_year p ->
  forall s caps caps' rest,
    year_captured caps ->
    match_pattern p s caps = Some (caps', rest) -> year_captured caps'.
Proof.
  induction 1 as [|tok p Htok _ IH]; intros s caps caps' rest Hy; simpl.
  - now intros [= <- _].
  - destruct tok as [d alts|c|].
    + intros H. apply first_alt_some in H as (alt & txt & r & _ & _ & H).
      eapply IH; [|exact H].
      destruct Hy as (t & Ht & H2). exists t. split; [|exact H2].
      rewrite capture_other; [exact Ht|]. intros ->. exact Htok.
    + destruct s as [|c' s]; [discriminate|].
      destruct (Ascii.eqb c c'); [|discriminate]. now apply IH.
    + intros H. apply spaces_plus_some in H as (r & H). eapply IH; eassumption.
Qed.

Lemma two_digit_format_captures_year (text : string) (caps : captures) (rest : string) :
  match_pattern (date_tokens Dy ++ time_tokens) text [] = Some (caps, rest) ->
  year_captured caps.
Proof.
  unfold date_tokens. simpl app. cbn [match_pattern group_of].
  intros H. apply first_alt_some in H as (a1 & t1 & r1 & _ & _ & H).
  destruct r1 as [|c r1]; [discriminate|].
  destruct (Ascii.eqb "/" c); [|discriminate].
  apply first_alt_some in H as (a2 & t2 & r2 & _ & _ & H).
  destruct r2 as [|c' r2]; [discriminate|].
  destruct (Ascii.eqb "/" c'); [|discriminate].
  apply first_alt_some in H as (a3 & t3 & r3 & Hin & Hm & H).
  destruct Hin as [<-|[]].
  apply match_seq_two_digits in Hm.
  apply (match_pattern_keeps_year time_tokens) with
    (s := r3) (caps := [(Dy, t3); (Dd, t2); (Dm, t1)]) (rest := rest).
  - unfold time_tokens, group_of. repeat constructor.
  - exists t3. split; [reflexivity|exact Hm].
  - exact H.
Qed.

Lemma digit_cases (c : ascii) :
  is_digit c = true ->
  In c ["0"; "1"; "2"; "3"; "4"; "5"; "6"; "7"; "8"; "9"]%char.
Proof.
  destruct c as [[] [] [] [] [] [] [] []]; vm_compute; try discriminate; intros _;
    repeat (try (left; reflexivity); right).
Qed.

Lemma two_digits_value (txt : string) :
  two_digits txt -> exists n, py_int txt = Ok n /\ 0 <= n <= 99.
Proof.
  intros (c1 & c2 & -> & H1 & H2).
  apply digit_cases in H1. apply digit_cases in H2.
  simpl in H1, H2.
  repeat (destruct H1 as [<-|H1]);
    try contradiction;
    repeat (destruct H2 as [<-|H2]);
    try contradiction;
    (eexists; split; [vm_compute; reflexivity|lia]).
Qed.

Lemma strptime_two_digit_year (text : string) (dt : datetime) :
  strptime text (date_tokens Dy ++ time_tokens) = Ok dt -> 1969 <= dt_year dt <= 2068.
Proof.
  unfold strptime.
  destruct (match_pattern (date_tokens Dy ++ time_tokens) text []) as [[caps rest]|] eqn:E;
    [|discriminate].
  apply two_digit_format_captures_year in E as (txt & Hcap & Htwo).
  apply two_digits_value in Htwo as (n & Hn & Hrange).
  destruct (negb (String.eqb rest "")); [discriminate|].
  unfold capture_int at 1. rewrite Hcap, Hn. cbn [bind].
  intros H.
  apply bind_ok in H as (y4 & _ & H).
  apply bind_ok in H as (m & _ & H).
  apply bind_ok in H as (d & _ & H).
  apply bind_ok in H as (hh & _ & H).
  apply bind_ok in H as (mm & _ & H).
  apply bind_ok in H as (ss & _ & H).
  apply py_datetime_ok in H as [-> _]. simpl.
  destruct (n <? 0) eqn:E0; [apply Z.ltb_lt in E0; lia|].
  destruct (n <=? 68) eqn:E1; [apply Z.leb_le in E1|apply Z.leb_gt in E1]; lia.
Qed.

Lemma epoch_seconds_between_years (lo hi : Z) (dt : datetime) :
  1 <= lo -> hi <= 9999 ->
  valid_datetime dt -> lo <= dt_year dt <= hi ->
  epoch_seconds (mk_datetime lo 1 1 0 0 0) <= epoch_seconds dt
  <= epoch_seconds (mk_datetime hi 12 31 23 59 59).
Proof.
  intros Hlo Hhi Hvalid Hyear.
  assert (Vlo : valid_datetime (mk_datetime lo 1 1 0 0 0)).
  { unfold valid_datetime, days_in_month. simpl. lia. }
  assert (Vhi : valid_datetime (mk_datetime hi 12 31 23 59 59)).
  { unfold valid_datetime, days_in_month. simpl. lia. }
  destruct Hvalid as (Hy & Hm & Hd & Hh & Hmi & Hs).
  split.
  - destruct (earlier_total (mk_datetime lo 1 1 0 0 0) dt) as [E|[<-|E]].
    + apply Z.lt_le_incl, epoch_seconds_earlier; try assumption.
      unfold valid_datetime. auto 10.
    + lia.
    + exfalso. unfold earlier in E. simpl in E. lia.
  - destruct (earlier_total dt (mk_datetime hi 12 31 23 59 59)) as [E|[->|E]].
    + apply Z.lt_le_incl, epoch_seconds_earlier; try assumption.
      unfold valid_datetime. auto 10.
    + lia.
    + exfalso. unfold earlier in E. simpl in E.
      assert (dt_month dt = 12 -> dt_day dt <= 31).
      { intros Hm12. rewrite Hm12 in Hd. unfold days_in_month in Hd. simpl in Hd. lia. }
      lia.
Qed.

(** X17. A date with a two-digit year is read in the years 1969 to 2068: when
    the third part of the date has two characters and the conversion gives a
    timestamp, the date and time parse to a year in that range and the
    timestamp lies between 1969-01-01 00:00:00 and 2068-12-31 23:59:59. *)
Theorem two_digit_year_window (d t year_part : string)
        (out : list convert_json_to_fit.event) (z : Z) :
  nth_error (split "/" d) 2 = Some year_part ->
  String.length year_part = 2%nat ->
  convert_json_to_fit.convert_date_to_unix_timestamp (PStr d) (PStr t) = (out, Ok (Some z)) ->
  exists dt,
    parses_to (PStr d) (PStr t) dt
    /\ 1969 <= dt_year dt <= 2068
    /\ - 31536000000 <= z <= 3124223999000.
Proof.
  intros Hpart Hlen H.
  unfold convert_json_to_fit.convert_date_to_unix_timestamp in H.
  rewrite Hpart, Hlen in H. simpl Nat.eqb in H. cbv iota in H.
  destruct (strptime (d ++ " " ++ t) (date_tokens Dy ++ time_tokens)) as [dt|e] eqn:E.
  2:{ destruct e; discriminate. }
  injection H as <- <-.
  pose proof (strptime_two_digit_year _ _ E) as Hyear.
  pose proof (strptime_valid _ _ _ E) as Hvalid.
  exists dt. split.
  { exists d, t, year_part. unfold year_directive. rewrite Hlen. auto. }
  split; [exact Hyear|].
  pose proof (epoch_seconds_between_years 1969 2068 dt ltac:(lia) ltac:(lia) Hvalid Hyear)
    as Hrange.
  change (epoch_seconds (mk_datetime 1969 1 1 0 0 0)) with (- 31536000) in Hrange.
  change (epoch_seconds (mk_datetime 2068 12 31 23 59 59)) with 3124223999 in Hrange.
  lia.
Qed.

(** ** The further properties on the sample inputs *)

Lemma success_means_every_record_converted_witness :
  exists entries,
    unordered_data = PList entries
    /\ 3 = Z.of_nat (List.length entries)
    /\ Forall convertible_record entries.
Proof.
  apply (success_means_every_record_converted sample_encoder
           (converter.mk_converter 0) unordered_data "weight-2024-06-01.json"
           (converter.mk_converter 1) [Byte.xff; Byte.x52; Byte.x51; Byte.x52] 3).
  vm_compute. reflexivity.
Defined.

Lemma bytes_independent_of_file_name_witness :
  converter.process_json_data sample_encoder (converter.mk_converter 0) scenario_data
    "weight-2024-06-01.json" = Ok (converter.mk_converter 1, ([Byte.xff; Byte.x51], 1))
  /\ converter.process_json_data sample_encoder (converter.mk_converter 7) scenario_data
       "export.json" = Ok (converter.mk_converter 8, ([Byte.xff; Byte.x51], 1))
  /\ ([Byte.xff; Byte.x51] = [Byte.xff; Byte.x51] /\ 1 = 1).
Proof.
  split; [vm_compute; reflexivity|]. split; [vm_compute; reflexivity|].
  apply (bytes_independent_of_file_name sample_encoder
           (converter.mk_converter 0) (converter.mk_converter 7) scenario_data
           "weight-2024-06-01.json" "export.json"
           (converter.mk_converter 1) (converter.mk_converter 8));
    vm_compute; reflexivity.
Defined.

Lemma unused_week_can_abort_witness :
  converter.process_json_data sample_encoder (converter.mk_converter 0)
    numeric_date_data "export.json" = Raise TypeError
  /\ converter.process_json_data sample_encoder (converter.mk_converter 0)
       numeric_date_data "weight-2024-06-01.json"
     = Ok (converter.mk_converter 1, ([Byte.xff; Byte.x51], 1)).
Proof.
  split; [|vm_compute; reflexivity].
  apply (unused_week_can_abort sample_encoder (converter.mk_converter 0)
           numeric_date_data "export.json"
           (PDict [("logId", PInt 1717228800000); ("weight", PFloat 180);
                   ("date", PInt 20240601); ("time", PStr "08:00:00")])
           (PInt 20240601)); try reflexivity.
  discriminate.
Defined.

Lemma batch_is_file_by_file_witness :
  Forall2 (fun file res =>
             converter.convert_fitbit_to_garmin sample_encoder [file] = Ok [res])
          [("weight-2024-06-01.json", scenario_data); ("export.json", unordered_data)]
          [("Weight 22-2024 Fitbit.fit", [Byte.xff; Byte.x51]);
           ("Weight Converted Fitbit.fit", [Byte.xff; Byte.x52; Byte.x51; Byte.x52])].
Proof.
  apply (batch_is_file_by_file sample_encoder). vm_compute. reflexivity.
Defined.

Lemma first_failure_aborts_batch_witness :
  converter.convert_fitbit_to_garmin sample_encoder
    [("weight-2024-06-01.json", scenario_data); ("bad.json", PList [PInt 1]);
     ("export.json", unordered_data)]
  = Raise TypeError.
Proof.
  apply (first_failure_aborts_batch sample_encoder
           [("weight-2024-06-01.json", scenario_data)] ("bad.json", PList [PInt 1])
           [("export.json", unordered_data)]).
  - constructor; [|constructor]. eexists. vm_compute. reflexivity.
  - reflexivity.
Defined.

Lemma extract_week_year_raises_only_overflow_witness :
  converter.extract_week_year_from_filename "weight-99999999999-01-01.json"
  = Raise OverflowError
  /\ OverflowError = OverflowError.
Proof.
  split; [reflexivity|].
  apply (extract_week_year_raises_only_overflow "weight-99999999999-01-01.json").
  reflexivity.
Defined.

Lemma output_name_week_in_range_witness :
  "Weight 22-2024 Fitbit.fit" = "Weight Converted Fitbit.fit"
  \/ exists week year,
      1 <= week <= 53 /\ 1 <= year <= 9999
      /\ "Weight 22-2024 Fitbit.fit" = weight_file_name (week_year_text week year).
Proof.
  apply (proj1 output_name_week_in_range "weight-2024-06-01.json"). reflexivity.
Defined.

Lemma zero_timestamp_only_at_epoch_witness :
  parses_to (PStr "01/01/1970") (PStr "0:0:0") (mk_datetime 1970 1 1 0 0 0)
  /\ @nil convert_json_to_fit.event = [].
Proof.
  apply (zero_timestamp_only_at_epoch (PStr "01/01/1970") (PStr "0:0:0")). reflexivity.
Defined.

Lemma timestamps_follow_calendar_witness :
  exists dt1 dt2,
    parses_to (PStr "12/31/99") (PStr "23:59:59") dt1
    /\ parses_to (PStr "1/1/2000") (PStr "00:00:00") dt2
    /\ (forall dt, parses_to (PStr "12/31/99") (PStr "23:59:59") dt -> dt = dt1)
    /\ (forall dt, parses_to (PStr "1/1/2000") (PStr "00:00:00") dt -> dt = dt2)
    /\ (946684799000 < 946684800000 <-> earlier dt1 dt2)
    /\ (946684799000 = 946684800000 <-> dt1 = dt2).
Proof.
  apply (timestamps_follow_calendar
           (PStr "12/31/99") (PStr "23:59:59") (PStr "1/1/2000") (PStr "00:00:00") [] []);
    reflexivity.
Defined.

Lemma timestamp_range_witness :
  - 62135596800000 <= 1717228800000 <= 253402300799000
  /\ 1717228800000 mod 1000 = 0
  /\ Z.abs 1717228800000 < 2 ^ 53.
Proof.
  apply (timestamp_range (PStr "6/1/24") (PStr "08:00:00") []). reflexivity.
Defined.

Lemma script_loop_accounting_witness :
  exists msgs,
    convert_json_to_fit.weight_entries_appended mixed_data
    = ([convert_json_to_fit.ErrorParsingDate "13/1/24" (PStr "08:00:00")], Ok msgs)
    /\ Forall is_parse_error
         [convert_json_to_fit.ErrorParsingDate "13/1/24" (PStr "08:00:00")]
    /\ (List.length msgs + 1 <= 4)%nat.
Proof.
  eexists. split; [vm_compute; reflexivity|].
  apply (script_loop_accounting
           [takeout_entry 1 180 None "6/1/24" "08:00:00";
            takeout_entry 2 181 None "13/1/24" "08:00:00";
            takeout_entry 3 182 None "1/1/70" "00:00:00";
            takeout_entry 4 183 None "6/3/24" "08:00:00"]).
  vm_compute. reflexivity.
Defined.

Lemma converters_agree_on_record_witness :
  convert_json_to_fit.weight_entry consistent_entry
  = ([], Ok (Some (weight_scale_message 1717228800000 81.6 (Some (PFloat 21.5)))))
  /\ convert_json_to_fit.weight_entry consistent_entry
     = ([], match converter.weight_entry consistent_entry with
            | Ok m => Ok (Some m)
            | Raise e => Raise e
            end).
Proof.
  split; [vm_compute; reflexivity|].
  apply (converters_agree_on_record consistent_entry (PStr "6/1/24") (PStr "08:00:00")
           1717228800000); try reflexivity.
  discriminate.
Defined.

Lemma endpoint_valid_iff_witness :
  exists entries,
    scenario_data = PList entries
    /\ main.entry_count (main.validate_file (fun _ => "") "weight-2024-06-01.json" scenario_data)
       = Some (Z.of_nat (List.length entries))
    /\ main.error_message
         (main.validate_file (fun _ => "") "weight-2024-06-01.json" scenario_data)
       = None.
Proof.
  apply (proj2 (endpoint_valid_iff (fun _ => "") "weight-2024-06-01.json" scenario_data)).
  reflexivity.
Defined.

Lemma script_reads_backend_names_witness :
  convert_json_to_fit.get_week_number_from_filename "weight-2024-06-01.json"
  = Ok (Some "22-2024").
Proof.
  apply (script_reads_backend_names "weight-2024-06-01.json" "22-2024"); reflexivity.
Defined.

Lemma two_digit_year_window_witness :
  exists dt,
    parses_to (PStr "12/31/68") (PStr "23:59:59") dt
    /\ 1969 <= dt_year dt <= 2068
    /\ - 31536000000 <= 3124223999000 <= 3124223999000.
Proof.
  apply (two_digit_year_window "12/31/68" "23:59:59" "68" []); reflexivity.
Defined.
